(** * study: a retrieval augmented generation app (main.go)

    A shallow embedding of the query pipeline of [main.go]: the in-memory
    reference store, cosine similarity over float64 vectors, the lookup
    [FindReference], query expansion, prompt rendering, cited completion and
    the HTTP [Handler].

    float64 is the kernel's binary64 ([PrimFloat]); every operation is rounded
    on its own (no fused multiply-add).  [log.Fatal*] ends the process and is
    the outcome [Fatal]; a run-time panic is the outcome [Panic].  No function
    of main.go writes an element of a slice or an entry of a map it did not
    just build, so slices are lists and maps are finite maps, without
    aliasing. *)

From Stdlib Require Import ZArith Floats Lia Reals Lra.
From stdpp Require Import base option list strings gmap.

Set Warnings "-register-all".

Local Open Scope string_scope.
Local Open Scope list_scope.

(** ** Outcomes of a call *)

(** The sites of [log.Fatalln] / [log.Fatalf] in main.go. *)
Inductive fatal : Type :=
  | EnvNotSet (key : string)
  | FailedToMarshal
  | FailedToUnmarshal
  | FailedToCreateRequest
  | FailedToSendRequest
  | UnexpectedStatusCode (code : Z) (body : string)
  | FailedToReadResponseBody
  | FailedToParseTemplate
  | FailedToExecuteTemplate
  | FailedToReadDirectory
  | FailedToReadFile (name : string).

(** Run-time panics the program can raise. *)
Inductive panic : Type :=
  | IndexOutOfRange (index len : nat)
  | NilTemplate (name : string).

Inductive res (A : Type) : Type :=
  | Ok (a : A)
  | Fatal (f : fatal)
  | Panic (p : panic).
Arguments Ok {A} a.
Arguments Fatal {A} f.
Arguments Panic {A} p.

Definition res_bind {A B} (r : res A) (k : A -> res B) : res B :=
  match r with
  | Ok a => k a
  | Fatal f => Fatal f
  | Panic p => Panic p
  end.

(** ** Cosine similarity *)

Module Similarity.

(** The three accumulators of [CalculateSimilarity]. *)
Record sums : Type := Sums {
  dotProduct : float;
  aMagnitude : float;
  bMagnitude : float
}.

Definition zero_sums : sums := Sums 0%float 0%float 0%float.

(** One iteration of the loop body at index [i], given [a[i]] and [b[i]]. *)
Definition step (acc : sums) (x y : float) : sums :=
  Sums (dotProduct acc + x * y)%float
       (aMagnitude acc + x * x)%float
       (bMagnitude acc + y * y)%float.

(** [for i := 0; i < len(a); i++]: [rest] is [a[i:]]; [b[i]] is bounds
    checked by the run time. *)
Fixpoint loop (rest : list float) (b : list float) (i : nat) (acc : sums)
  : res sums :=
  match rest with
  | [] => Ok acc
  | x :: rest' =>
      match b !! i with
      | None => Panic (IndexOutOfRange i (length b))
      | Some y => loop rest' b (S i) (step acc x y)
      end
  end.

Definition finish (acc : sums) : float :=
  let aM := PrimFloat.sqrt (aMagnitude acc) in
  let bM := PrimFloat.sqrt (bMagnitude acc) in
  (dotProduct acc / (aM * bM))%float.

Definition CalculateSimilarity (a b : list float) : res float :=
  res_bind (loop a b 0 zero_sums) (fun acc => Ok (finish acc)).

End Similarity.
Export Similarity.


(** ** Data model (the struct declarations of main.go) *)

Record Reference : Type := mkReference {
  File : string;
  Exerpt : string;
  Embedding : list float
}.

Record QueryExpansionResponse : Type := mkQueryExpansionResponse {
  Queries : list string
}.

Record Citation : Type := mkCitation {
  Claim : string;
  References : list Reference
}.

Record CitedResponse : Type := mkCitedResponse {
  Commentary : string;
  Citations : list Citation
}.

Record CompletionRequest : Type := mkCompletionRequest {
  Model : string;
  Messages : list (gmap string string);
  ResponseFormat : gmap string string
}.

Record CompletionChoice : Type := mkCompletionChoice {
  Message : gmap string string
}.

Record CompletionResponse : Type := mkCompletionResponse {
  Choices : list CompletionChoice
}.

Record EmbeddingRequest : Type := mkEmbeddingRequest {
  EmbeddingRequest_Model : string;
  Input : string
}.

Record EmbeddingData : Type := mkEmbeddingData {
  EmbeddingData_Embedding : list float
}.

Record EmbeddingResponse : Type := mkEmbeddingResponse {
  Data : list EmbeddingData
}.

(** [a[i]] on a slice: the run time panics out of range. *)
Definition index {A} (l : list A) (i : nat) : res A :=
  match l !! i with
  | Some x => Ok x
  | None => Panic (IndexOutOfRange i (length l))
  end.

(** [m[k]] on a [map[string]string]: the zero value when the key is absent. *)
Definition map_get (m : gmap string string) (k : string) : string :=
  default EmptyString (m !! k).

(** [func (r *CompletionResponse) Content() string] *)
Definition Content (r : CompletionResponse) : res string :=
  res_bind (index (Choices r) 0) (fun c => Ok (map_get (Message c) "content")).

(** [func (r *EmbeddingResponse) Embedding() []float64] *)
Definition EmbeddingResponse_Embedding (r : EmbeddingResponse) : res (list float) :=
  res_bind (index (Data r) 0) (fun d => Ok (EmbeddingData_Embedding d)).

(** ** Templates

    The three template constants are given by their parse trees: static text
    is kept verbatim, every action is a node.  [html/template] escapes an
    action by the HTML context it stands in; the context is recorded at the
    node and the escaping itself is a function of the platform. *)

Inductive escaper : Type :=
  | EscText   (* element content *)
  | EscURL.   (* inside the value of an href attribute *)

Inductive node : Type :=
  | Text (s : string)
  | Field (esc : escaper) (path : list string)          (* {{.A.B}} *)
  | Range (path : list string) (body : list node)       (* {{range .A}}..{{end}} *)
  | IfElse (path : list string) (yes no : list node).   (* {{if .A}}..{{else}}..{{end}} *)

(** The data a template is executed on. *)
Inductive value : Type :=
  | VNil
  | VString (s : string)
  | VFloat (f : float)
  | VSlice (items : list value)
  | VStruct (fields : list (string * value)).

Definition dq : string := String (Ascii.ascii_of_nat 34) EmptyString.

Definition TMPL_INDEX : list node := [
  Text ("
<html>
<h1>");
  Field EscText ["Title"];
  Text (String.concat dq ["</h1>
<form action="; "/"; " method="; "post"; ">
<input type="; "text"; " name="; "query"; "/>
<input type="; "submit"; " value="; "Query"; "/>
</form>

<h2>Response</h2>
"]);
  IfElse ["Response"] [
    Text ("
<p>Commentary: ");
    Field EscText ["Response"; "Commentary"];
    Text ("</p>

References:
<ul>
");
    Range ["Response"; "Citations"] [
      Text ("
<li>");
      Field EscText ["Claim"];
      Text (" ");
      Range ["References"] [
        Text (String.concat dq ["<a href="; "/references/"]);
        Field EscURL ["File"];
        Text (String.concat dq [EmptyString; ">"]);
        Field EscText ["File"];
        Text ("</a>")
      ];
      Text ("</li>
")
    ];
    Text ("
</ul>

")
  ] [
    Text ("
<p>Submit a query to get a response.</p>
")
  ];
  Text ("
</html>
")
].

Definition TMPL_PROMPT_EXPAND_QUERY : list node := [
  Text ("
INSTRUCTIONS

Expand the following QUERY. Provide 10 additional queries you would use to
diversify your knowledge on the topic.

QUERY

");
  Field EscText ["Query"];
  Text (String.concat dq ["

JSON RESPONSE TEMPLATE

{
	"; "queries"; ": ["; "<query 1>"; ", "; "<query 2>"; ", "; "<query 3>"; "]
}
"])
].

Definition TMPL_PROMPT_RESPONSE : list node := [
  Text ("
INSTRUCTIONS

Respond to the following QUERY using REFERENCES below. Cite the a file in the
REFERENCES that contains the fact used. Provide uncited commentary separately.
If NO REFERENCES are provided, it is impossible to provide citations.

QUERY

");
  Field EscText ["Query"];
  Text ("

REFERENCES

");
  Range ["References"] [
    Text ("
- File: ");
    Field EscText ["File"];
    Text ("
- Exerpt: ");
    Field EscText ["Exerpt"];
    Text ("
")
  ];
  Text (String.concat dq ["

JSON RESPONSE TEMPLATE

{
	"; "commentary"; ": "; "<summary commentary without citations>"; ",
	"; "citations"; ": [
		{
			"; "claim"; ": "; "<summary claim 1>"; ",
			"; "references"; ": [
				{"; "exerpt"; ": "; "<exerpt>"; ", "; "file"; ": "; "<file-name-1.txt>"; "},
				{"; "exerpt"; ": "; "<exerpt>"; ", "; "file"; ": "; "<file-name-2.txt>"; "},
				{"; "exerpt"; ": "; "<exerpt>"; ", "; "file"; ": "; "<file-name-3.txt>"; "},
			]
		},
	]
}
"])
].

(** How the structs appear to a template. *)
Definition value_of_Reference (r : Reference) : value :=
  VStruct [("File", VString (File r));
           ("Exerpt", VString (Exerpt r));
           ("Embedding", VSlice (map VFloat (Embedding r)))].

Definition value_of_Citation (c : Citation) : value :=
  VStruct [("Claim", VString (Claim c));
           ("References", VSlice (map value_of_Reference (References c)))].

Definition value_of_CitedResponse (c : CitedResponse) : value :=
  VStruct [("Commentary", VString (Commentary c));
           ("Citations", VSlice (map value_of_Citation (Citations c)))].

Module Template.

Fixpoint assoc (k : string) (fields : list (string * value)) : option value :=
  match fields with
  | [] => None
  | (k', v) :: rest => if String.eqb k k' then Some v else assoc k rest
  end.

(** [{{.A.B}}] from the current dot.  The three templates only name
    fields their callers supply; naming anything else ends execution
    with an error here. *)
Fixpoint eval (path : list string) (dot : value) : option value :=
  match path with
  | [] => Some dot
  | k :: rest =>
      match dot with
      | VStruct fields =>
          match assoc k fields with
          | Some v => eval rest v
          | None => None
          end
      | _ => None
      end
  end.

(** Truth of a pipeline value in [{{if}}]: the zero value is false. *)
Definition truth (v : value) : bool :=
  match v with
  | VNil => false
  | VString s => negb (String.eqb s EmptyString)
  | VFloat f => negb (PrimFloat.eqb f 0)
  | VSlice items => match items with [] => false | _ => true end
  | VStruct _ => true
  end.

Section Exec.
(** Printing and escaping of one value in a context. *)
Variable print : escaper -> value -> string.

Fixpoint exec (n : node) (dot : value) {struct n} : option string :=
  let block := fix block (ns : list node) (dot : value) : option string :=
    match ns with
    | [] => Some EmptyString
    | n :: ns' =>
        match exec n dot with
        | None => None
        | Some out =>
            match block ns' dot with
            | None => None
            | Some out' => Some (out +:+ out')
            end
        end
    end in
  match n with
  | Text s => Some s
  | Field esc path =>
      match eval path dot with
      | Some v => Some (print esc v)
      | None => None
      end
  | Range path body =>
      match eval path dot with
      | Some (VSlice items) =>
          (fix each (items : list value) : option string :=
             match items with
             | [] => Some EmptyString
             | item :: items' =>
                 match block body item with
                 | None => None
                 | Some out =>
                     match each items' with
                     | None => None
                     | Some out' => Some (out +:+ out')
                     end
                 end
             end) items
      | Some VNil => Some EmptyString
      | _ => None
      end
  | IfElse path yes no =>
      match eval path dot with
      | Some v => if truth v then block yes dot else block no dot
      | None => None
      end
  end.

(** [Execute] of a parsed template on [data]. *)
Fixpoint Execute (t : list node) (data : value) : option string :=
  match t with
  | [] => Some EmptyString
  | n :: t' =>
      match exec n data with
      | None => None
      | Some out =>
          match Execute t' data with
          | None => None
          | Some out' => Some (out +:+ out')
          end
      end
  end.
End Exec.

End Template.

(** ** The platform

    What main.go takes from outside: [encoding/json], the escaping of
    [html/template], the provider behind [http.Client.Do], and the [os]
    calls.  Each is a field, so every theorem holds for all of them. *)

(** [json.Marshal] and [json.Unmarshal] at one Go type ([interface{}] at the
    call sites of [toJSON] and [fromJSON]); [None] is a returned error. *)
Class JSON (T : Type) : Type := {
  Marshal : T -> option string;
  Unmarshal : string -> option T
}.

(** What one [doPost] call meets. *)
Inductive post_outcome : Type :=
  | RequestError                                  (* http.NewRequest fails *)
  | SendError                                     (* client.Do fails *)
  | Response (status : Z) (body : option string). (* body None: io.ReadAll fails *)

Record exchange : Type := mkExchange {
  ex_url : string;
  ex_body : string;
  ex_outcome : post_outcome
}.

Record DirEntry : Type := mkDirEntry {
  Name : string;
  IsDir : bool
}.

Class Platform : Type := {
  json_CompletionRequest :: JSON CompletionRequest;
  json_EmbeddingRequest :: JSON EmbeddingRequest;
  json_CompletionResponse :: JSON CompletionResponse;
  json_EmbeddingResponse :: JSON EmbeddingResponse;
  json_QueryExpansionResponse :: JSON QueryExpansionResponse;
  json_CitedResponse :: JSON CitedResponse;
  print : escaper -> value -> string;
  (** The provider answers from everything posted so far, the API key, the
      URL and the body. *)
  provider : list exchange -> string -> string -> string -> post_outcome;
  ReadDir : string -> option (list DirEntry);
  ReadFile : string -> option string;
  LookupEnv : string -> option string
}.

(** ** Package state (the [var] block) and the calls posted so far

    [posted] is not a variable of the program: it records every [doPost]
    call so far, oldest first, with what it met. *)

Record state : Type := mkState {
  openAIAPIKey : string;
  openAILanguageModel : string;
  openAIEmbeddingModel : string;
  similarityThreshold : float;
  references : list Reference;
  templates : gmap string (list node);
  posted : list exchange
}.

Definition openAIAPIKeyEnv : string := "OPENAI_API_KEY".
Definition openAILanguageModelEnv : string := "OPENAI_LANGUAGE_MODEL".
Definition openAILanguageModelDefault : string := "gpt-4o".
Definition openAIEmbeddingModelEnv : string := "OPENAI_EMBEDDING_MODEL".
Definition openAIEmbeddingModelDefault : string := "text-embedding-3-large".
Definition openAICompletionURL : string := "https://api.openai.com/v1/chat/completions".
Definition openAICompletionSystemPrompt : string := "You are a helpful assistant.".
Definition openAIEmbeddingURL : string := "https://api.openai.com/v1/embeddings".
Definition referencesPath : string := "references".

(** The state when [main] starts. *)
Definition initial : state :=
  mkState EmptyString EmptyString EmptyString 0.5%float [] ∅ [].

Definition set_openAIAPIKey (v : string) (s : state) : state :=
  mkState v (openAILanguageModel s) (openAIEmbeddingModel s)
          (similarityThreshold s) (references s) (templates s) (posted s).
Definition set_openAILanguageModel (v : string) (s : state) : state :=
  mkState (openAIAPIKey s) v (openAIEmbeddingModel s)
          (similarityThreshold s) (references s) (templates s) (posted s).
Definition set_openAIEmbeddingModel (v : string) (s : state) : state :=
  mkState (openAIAPIKey s) (openAILanguageModel s) v
          (similarityThreshold s) (references s) (templates s) (posted s).
Definition set_references (v : list Reference) (s : state) : state :=
  mkState (openAIAPIKey s) (openAILanguageModel s) (openAIEmbeddingModel s)
          (similarityThreshold s) v (templates s) (posted s).
Definition set_templates (v : gmap string (list node)) (s : state) : state :=
  mkState (openAIAPIKey s) (openAILanguageModel s) (openAIEmbeddingModel s)
          (similarityThreshold s) (references s) v (posted s).
Definition set_posted (v : list exchange) (s : state) : state :=
  mkState (openAIAPIKey s) (openAILanguageModel s) (openAIEmbeddingModel s)
          (similarityThreshold s) (references s) (templates s) v.

(** ** The monad of the program: state, fatal exit, panic *)

Definition M (A : Type) : Type := state -> res A * state.

#[global] Instance M_ret : MRet M := fun A (a : A) s => (Ok a, s).

#[global] Instance M_bind : MBind M := fun A B (k : A -> M B) (m : M A) s =>
  match m s with
  | (Ok a, s') => k a s'
  | (Fatal f, s') => (Fatal f, s')
  | (Panic p, s') => (Panic p, s')
  end.

Definition gets {A} (f : state -> A) : M A := fun s => (Ok (f s), s).
Definition modify (f : state -> state) : M unit := fun s => (Ok tt, f s).
Definition log_Fatal {A} (f : fatal) : M A := fun s => (Fatal f, s).
Definition lift {A} (r : res A) : M A := fun s => (r, s).

(** How a loop body ends: at its end, or by [continue]. *)
Inductive ctl : Type := Next | Continue.

(** [for _, x := range xs { body }] with no loop-carried local. *)
Fixpoint range_ {A} (xs : list A) (body : A -> M ctl) : M unit :=
  match xs with
  | [] => mret tt
  | x :: xs' => _ ← body x; range_ xs' body
  end.

(** [for _, x := range xs { body }] updating a local [acc]. *)
Fixpoint foldM {A B} (body : B -> A -> M B) (xs : list A) (acc : B) : M B :=
  match xs with
  | [] => mret acc
  | x :: xs' => acc' ← body acc x; foldM body xs' acc'
  end.

(** [*http.Request] as far as [Handler] reads it, and what it writes. *)
Record Request : Type := mkRequest {
  Method : string;
  Form : gmap string (list string)
}.

Definition MethodGet : string := "GET".
Definition MethodPost : string := "POST".
Definition StatusMethodNotAllowed : Z := 405.

(** [r.FormValue(key)]: the first value of the key, or the empty string. *)
Definition FormValue (r : Request) (key : string) : string :=
  match Form r !! key with
  | Some (v :: _) => v
  | _ => EmptyString
  end.

Inductive Reply : Type :=
  | Written (body : string)               (* w.Write(body) *)
  | HttpError (error : string) (code : Z). (* http.Error(w, error, code) *)

(** ** The functions of main.go *)

Section Program.
Context `{P : Platform}.

Definition NewCompletionRequest : M CompletionRequest :=
  model ← gets openAILanguageModel;
  mret (mkCompletionRequest model [] {[ "type" := "json_object" ]}).

Definition AddMessage (r : CompletionRequest) (role content : string)
  : CompletionRequest :=
  mkCompletionRequest (Model r)
    (Messages r ++ [ {[ "role" := role; "content" := content ]} ])
    (ResponseFormat r).

Definition NewCompletionResponse : CompletionResponse := mkCompletionResponse [].

Definition NewEmbeddingRequest (text : string) : M EmbeddingRequest :=
  model ← gets openAIEmbeddingModel;
  mret (mkEmbeddingRequest model text).

Definition NewEmbeddingResponse : EmbeddingResponse := mkEmbeddingResponse [].

Definition mustGetEnv (key : string) : M string :=
  match LookupEnv key with
  | Some v => mret v
  | None => log_Fatal (EnvNotSet key)
  end.

Definition getEnv (key defaultValue : string) : string :=
  match LookupEnv key with
  | Some v => v
  | None => defaultValue
  end.

Definition toJSON {T} `{JSON T} (v : T) : M string :=
  match Marshal v with
  | Some json => mret json
  | None => log_Fatal FailedToMarshal
  end.

(** [fromJSON(data, v)]: every call site passes a fresh zero value for [v],
    so the result is the decoded value. *)
Definition fromJSON {T} `{JSON T} (data : string) : M T :=
  match Unmarshal data with
  | Some v => mret v
  | None => log_Fatal FailedToUnmarshal
  end.

Definition doPost (url body : string) : M string :=
  key ← gets openAIAPIKey;
  history ← gets posted;
  let outcome := provider history key url body in
  _ ← modify (set_posted (history ++ [mkExchange url body outcome]));
  match outcome with
  | RequestError => log_Fatal FailedToCreateRequest
  | SendError => log_Fatal FailedToSendRequest
  | Response status rbody =>
      if negb (status =? 200)%Z
      then log_Fatal (UnexpectedStatusCode status (default EmptyString rbody))
      else match rbody with
           | None => log_Fatal FailedToReadResponseBody
           | Some responseBodyBytes => mret responseBodyBytes
           end
  end.

(** The constants are parsed already, so the parse error of
    [template.New(name).Parse(text)] cannot arise. *)
Definition LoadTemplate (name : string) (text : list node) : M (list node) :=
  tmpls ← gets templates;
  match tmpls !! name with
  | Some tmpl => mret tmpl
  | None =>
      _ ← modify (set_templates (<[ name := text ]> tmpls));
      mret text
  end.

Definition RenderTemplate (name : string) (data : value) : M string :=
  tmpls ← gets templates;
  match tmpls !! name with
  | None => lift (Panic (NilTemplate name))
  | Some tmpl =>
      match Template.Execute print tmpl data with
      | None => log_Fatal FailedToExecuteTemplate
      | Some out => mret out
      end
  end.

Definition GenerateCompletion (text : string) : M string :=
  r0 ← NewCompletionRequest;
  let completionRequest :=
    AddMessage (AddMessage r0 "system" openAICompletionSystemPrompt) "user" text in
  body ← toJSON completionRequest;
  bytes ← doPost openAICompletionURL body;
  completionResponse ← fromJSON bytes;
  lift (Content completionResponse).

Definition GenerateEmbedding (text : string) : M (list float) :=
  embeddingRequest ← NewEmbeddingRequest text;
  body ← toJSON embeddingRequest;
  bytes ← doPost openAIEmbeddingURL body;
  embeddingResponse ← fromJSON bytes;
  lift (EmbeddingResponse_Embedding embeddingResponse).

Definition LoadReferences (path : string) : M unit :=
  match ReadDir path with
  | None => log_Fatal FailedToReadDirectory
  | Some files =>
      range_ files (fun file =>
        if IsDir file then mret Continue
        else
          match ReadFile (path +:+ "/" +:+ Name file) with
          | None => log_Fatal (FailedToReadFile (Name file))
          | Some content =>
              let excerpt := content in
              embedding ← GenerateEmbedding excerpt;
              let reference := mkReference (Name file) excerpt embedding in
              refs ← gets references;
              _ ← modify (set_references (refs ++ [reference]));
              mret Next
          end)
  end.

(** The body of the loop of [FindReference] for one stored [reference],
    with the local [result] so far. *)
Definition scan (embedding : list float) (result : list Reference)
    (reference : Reference) : M (list Reference) :=
  (* TODO(optim) this is O(n^2) and could be optimized *)
  _ ← range_ result (fun r =>
    if String.eqb (File r) (File reference) then mret Continue
    else mret Next);
  sim ← lift (CalculateSimilarity embedding (Embedding reference));
  threshold ← gets similarityThreshold;
  if (threshold <? sim)%float
  then mret (result ++ [reference])
  else mret result.

Definition FindReference (query : string) : M (list Reference) :=
  embedding ← GenerateEmbedding query;
  refs ← gets references;
  foldM (scan embedding) refs [].

Definition ExpandQuery (query : string) : M QueryExpansionResponse :=
  prompt ← RenderTemplate "expand" (VStruct [("Query", VString query)]);
  response ← GenerateCompletion prompt;
  fromJSON response.

Definition GenerateCompletionWithCitations (query : string)
    (references : list Reference) : M CitedResponse :=
  prompt ← RenderTemplate "response"
    (VStruct [("Query", VString query);
              ("References", VSlice (map value_of_Reference references))]);
  response ← GenerateCompletion prompt;
  fromJSON response.

(** The loop of [Handler] over the expanded queries (its local
    [references], which shadows the package variable). *)
Definition retrieve (queries : list string) : M (list Reference) :=
  foldM (fun references query =>
    found ← FindReference query;
    mret (references ++ found)) queries [].

Definition Handler (r : Request) : M Reply :=
  let title := "Study" in
  if String.eqb (Method r) MethodPost then
    let query := FormValue r "query" in
    expanded ← ExpandQuery query;
    references ← retrieve (Queries expanded);
    response ← GenerateCompletionWithCitations query references;
    page ← RenderTemplate "index"
      (VStruct [("Title", VString title);
                ("Response", value_of_CitedResponse response)]);
    mret (Written page)
  else if String.eqb (Method r) MethodGet then
    page ← RenderTemplate "index"
      (VStruct [("Title", VString title); ("Response", VNil)]);
    mret (Written page)
  else
    mret (HttpError "Method not allowed" StatusMethodNotAllowed).

(** [main] up to [http.ListenAndServe]. *)
Definition startup : M unit :=
  key ← mustGetEnv openAIAPIKeyEnv;
  _ ← modify (set_openAIAPIKey key);
  _ ← modify (set_openAILanguageModel
                (getEnv openAILanguageModelEnv openAILanguageModelDefault));
  _ ← modify (set_openAIEmbeddingModel
                (getEnv openAIEmbeddingModelEnv openAIEmbeddingModelDefault));
  _ ← LoadTemplate "index" TMPL_INDEX;
  _ ← LoadTemplate "expand" TMPL_PROMPT_EXPAND_QUERY;
  _ ← LoadTemplate "response" TMPL_PROMPT_RESPONSE;
  LoadReferences referencesPath.

(** The server on a sequence of requests to the root path.  [log.Fatal*]
    exits the process, so nothing after it is served; [net/http] recovers a
    panic of the handler and goes on with the next request. *)
Fixpoint serve (requests : list Request) (s : state)
  : list (res Reply) * state :=
  match requests with
  | [] => ([], s)
  | r :: rest =>
      match Handler r s with
      | (Fatal f, s') => ([Fatal f], s')
      | (o, s') => let (os, s'') := serve rest s' in (o :: os, s'')
      end
  end.

(** [main]: the outcome of start-up, then the outcomes of the requests. *)
Definition main (requests : list Request) : res unit * list (res Reply) * state :=
  match startup initial with
  | (Ok u, s0) => let (os, s) := serve requests s0 in (Ok u, os, s)
  | (o, s0) => (o, [], s0)
  end.

End Program.

(** ** Test doubles

    A platform built from a scenario: fixed vectors and fixed completions,
    no network.  Request bodies carry the text itself; the provider answers an
    embedding request with the text (standing for the JSON of its vector) and a
    completion request with the name of the prompt it was sent. *)

Module Fixture.

Record scenario : Type := mkScenario {
  files : list (string * string);       (* the references directory *)
  vectors : string -> list float;       (* the embedding of a text *)
  status : string -> Z;                 (* the status code by URL *)
  with_choices : bool;                  (* false: the provider sends no choice *)
  expansion : option (list string);     (* None: not JSON *)
  answer : option CitedResponse         (* None: not JSON *)
}.

Section Doubles.
Variable sc : scenario.

Definition user_prompt (r : CompletionRequest) : string :=
  match last (Messages r) with
  | Some m => map_get m "content"
  | None => EmptyString
  end.

Definition is_expand_prompt (prompt : string) : bool :=
  String.prefix "
INSTRUCTIONS

Expand" prompt.

Definition reply (url body : string) : string :=
  if String.eqb url openAIEmbeddingURL then body
  else if is_expand_prompt body then "expansion" else "answer".

#[local] Instance json_request : JSON CompletionRequest :=
  {| Marshal := fun r => Some (user_prompt r); Unmarshal := fun _ => None |}.
#[local] Instance json_embedding_request : JSON EmbeddingRequest :=
  {| Marshal := fun r => Some (Input r); Unmarshal := fun _ => None |}.
#[local] Instance json_completion : JSON CompletionResponse :=
  {| Marshal := fun _ => None;
     Unmarshal := fun data => Some (mkCompletionResponse
       (if with_choices sc
        then [mkCompletionChoice {[ "content" := data ]}] else [])) |}.
#[local] Instance json_embedding : JSON EmbeddingResponse :=
  {| Marshal := fun _ => None;
     Unmarshal := fun data =>
       Some (mkEmbeddingResponse [mkEmbeddingData (vectors sc data)]) |}.
#[local] Instance json_expansion : JSON QueryExpansionResponse :=
  {| Marshal := fun _ => None;
     Unmarshal := fun _ => mkQueryExpansionResponse <$> expansion sc |}.
#[local] Instance json_answer : JSON CitedResponse :=
  {| Marshal := fun _ => None; Unmarshal := fun _ => answer sc |}.

Definition platform : Platform := {|
  print := fun _ v => match v with VString s => s | _ => EmptyString end;
  provider := fun _ _ url body => Response (status sc url) (Some (reply url body));
  ReadDir := fun path =>
    if String.eqb path referencesPath
    then Some (map (fun f => mkDirEntry (fst f) false) (files sc))
    else None;
  ReadFile := fun path =>
    snd <$> List.find (fun f => String.eqb path (referencesPath +:+ "/" +:+ fst f))
                      (files sc);
  LookupEnv := fun key =>
    if String.eqb key openAIAPIKeyEnv then Some "sk-test" else None
|}.
End Doubles.

Definition post (query : string) : Request :=
  mkRequest MethodPost {[ "query" := [query] ]}.

Definition sky_fact : string := "the sky is blue due to Rayleigh scattering".

Definition sky_vectors (text : string) : list float :=
  if String.eqb text "the ocean is salty" then [0%float; 1%float]
  else [1%float; 0%float].

Definition sky_answer : CitedResponse :=
  mkCitedResponse "Rayleigh scattering."
    [mkCitation "The sky is blue." [mkReference "sky.txt" "blue" []]].

(** One fact, two expanded queries that both match it. *)
Definition sky : scenario :=
  mkScenario [("sky.txt", sky_fact)] sky_vectors (fun _ => 200%Z) true
    (Some ["why is the sky blue?"; "what causes sky color"])
    (Some sky_answer).

Definition query : string := "why is the sky blue?".

Definition sky_reference : Reference :=
  mkReference "sky.txt" sky_fact [1%float; 0%float].

(** The model leaves the original query out of its expansion. *)
Definition without_original : scenario :=
  mkScenario (files sky) sky_vectors (status sky) true
    (Some ["what causes sky color"]) (answer sky).

(** The model cites a file that is in no store. *)
Definition ghost_answer : CitedResponse :=
  mkCitedResponse "Rayleigh scattering."
    [mkCitation "The sky is blue." [mkReference "ghost.txt" "blue" []]].

Definition cites_ghost : scenario :=
  mkScenario (files sky) sky_vectors (status sky) true
    (expansion sky) (Some ghost_answer).

(** The same, with ghost.txt stored (and similar to no query). *)
Definition ghost_stored : scenario :=
  mkScenario [("ghost.txt", "the ocean is salty"); ("sky.txt", sky_fact)]
    sky_vectors (status sky) true (expansion sky) (Some ghost_answer).

(** The cited completion is not JSON. *)
Definition malformed : scenario :=
  mkScenario (files sky) sky_vectors (status sky) true (expansion sky) None.

(** The provider sends an empty list of choices. *)
Definition no_choices : scenario :=
  mkScenario (files sky) sky_vectors (status sky) false
    (expansion sky) (answer sky).

(** The completion endpoint answers 500 once the store is loaded. *)
Definition provider_down : scenario :=
  mkScenario (files sky) sky_vectors
    (fun url => if String.eqb url openAICompletionURL then 500%Z else 200%Z)
    true (expansion sky) (answer sky).

(** The state once [main] has loaded templates and references. *)
Definition loaded (sc : scenario) : state :=
  snd (@startup (platform sc) initial).

End Fixture.

(** Further scenarios for the test doubles. *)

Module Scenarios.
Import Fixture.

(** The provider embeds every text to the empty vector. *)
Definition empty_vectors : scenario :=
  mkScenario (files sky) (fun _ => []) (status sky) true
    (expansion sky) (answer sky).

(** The stored fact has one component, the queries have two. *)
Definition short_fact : scenario :=
  mkScenario (files sky)
    (fun text => if String.eqb text sky_fact then [1%float]
                 else [1%float; 0%float])
    (status sky) true (expansion sky) (answer sky).


(** The embedding endpoint answers 500 from the start. *)
Definition embeddings_down : scenario :=
  mkScenario (files sky) sky_vectors
    (fun url => if String.eqb url openAIEmbeddingURL then 500%Z else 200%Z)
    true (expansion sky) (answer sky).

End Scenarios.

(** ** Vocabulary of the properties *)

(** *** Classes of binary64 values *)

Definition sf_zero (x : spec_float) : bool :=
  match x with S754_zero _ => true | _ => false end.

Definition sf_nan (x : spec_float) : bool :=
  match x with S754_nan => true | _ => false end.

(** [x] is [+0] or [-0]. *)
Definition isZ (x : float) : Prop := sf_zero (Prim2SF x) = true.
(** [x] is NaN. *)
Definition isN (x : float) : Prop := sf_nan (Prim2SF x) = true.
(** [x] is a zero or NaN. *)
Definition isZN (x : float) : Prop := sf_zero (Prim2SF x) || sf_nan (Prim2SF x) = true.

(** *** Invariants of the loop of [CalculateSimilarity] *)

(** The accumulators while [a] is all zeros: the dot product is a zero or
    NaN, the squared magnitude of [a] is a zero. *)
Definition a_zero_inv (acc : sums) : Prop :=
  isZN (dotProduct acc) /\ isZ (aMagnitude acc).

Definition b_zero_inv (acc : sums) : Prop :=
  isZN (dotProduct acc) /\ isZ (bMagnitude acc).

(** *** What a call leaves unchanged

    [keeps m]: running [m] changes no package variable; only the record of
    posted calls may grow. *)

Definition globals (s : state) :=
  (openAIAPIKey s, openAILanguageModel s, openAIEmbeddingModel s,
   similarityThreshold s, references s, templates s).

Definition keeps {A} (m : M A) : Prop :=
  forall s, globals (snd (m s)) = globals s.

(** *** Accepted and failed provider calls

    [fails_fast m]: the calls [m] posts are all accepted (status 200 with a
    readable body), except possibly the last one, and then [m] ends in the
    [log.Fatalf] of [doPost] for that call. *)

Definition accepted (o : post_outcome) : bool :=
  match o with
  | Response status (Some _) => (status =? 200)%Z
  | _ => false
  end.

Definition fatal_of (o : post_outcome) : fatal :=
  match o with
  | RequestError => FailedToCreateRequest
  | SendError => FailedToSendRequest
  | Response status body =>
      if negb (status =? 200)%Z
      then UnexpectedStatusCode status (default EmptyString body)
      else FailedToReadResponseBody
  end.

Definition all_accepted (new : list exchange) : Prop :=
  Forall (fun e => accepted (ex_outcome e) = true) new.

Definition fails_fast {A} (m : M A) : Prop :=
  forall s, exists new,
    posted (snd (m s)) = posted s ++ new /\
    (all_accepted new \/
     exists pre e, new = pre ++ [e] /\ all_accepted pre /\
       accepted (ex_outcome e) = false /\
       fst (m s) = Fatal (fatal_of (ex_outcome e))).

(** *** The lookup and the prompt *)

(** [r] scores strictly above the threshold against the query embedding. *)
Definition above (threshold : float) (embedding : list float) (r : Reference) : bool :=
  match CalculateSimilarity embedding (Embedding r) with
  | Ok sim => (threshold <? sim)%float
  | _ => false
  end.

Definition no_references_sentence : string :=
  "If NO REFERENCES are provided, it is impossible to provide citations.".

(** [needle] occurs in [hay]. *)
Definition contains (needle hay : string) : Prop :=
  exists pre post, hay = pre +:+ needle +:+ post.

(** A test for [contains] on closed strings. *)
Fixpoint occurs (needle hay : string) : bool :=
  String.prefix needle hay ||
  match hay with
  | EmptyString => false
  | String _ hay' => occurs needle hay'
  end.

(** The texts sent to the embedding endpoint while [r] is handled from [s]
    (the test doubles post the text itself as the body). *)
Definition embedded_texts `{P : Platform} (r : Request) (s : state) : list string :=
  map ex_body
    (List.filter (fun e => String.eqb (ex_url e) openAIEmbeddingURL)
       (drop (length (posted s)) (posted (snd (Handler r s))))).

(** *** Calls posted, rendered text, start-up *)

(** [posts m us]: when [m] returns, the calls it posted went, in order, to
    the URLs [us]. *)
Definition posts {A} (m : M A) (us : list string) : Prop :=
  forall s a s', m s = (Ok a, s') ->
  exists new, posted s' = posted s ++ new /\ map ex_url new = us.

(** The static text of node [i] of a template. *)
Definition static_text (t : list node) (i : nat) : string :=
  match t !! i with
  | Some (Text s) => s
  | _ => EmptyString
  end.

(** [{{range}}] over [items]: the body executed on each item in turn. *)
Fixpoint each `{P : Platform} (body : list node) (items : list value)
  : option string :=
  match items with
  | [] => Some EmptyString
  | item :: items' =>
      match Template.Execute print body item with
      | None => None
      | Some out =>
          match each body items' with
          | None => None
          | Some out' => Some (out +:+ out')
          end
      end
  end.

(** What the response template writes for one candidate, and for a list. *)
Definition prompt_entry `{P : Platform} (r : Reference) : string :=
  "
- File: " +:+ print EscText (VString (File r)) +:+ "
- Exerpt: " +:+ print EscText (VString (Exerpt r)) +:+ "
".

Fixpoint prompt_entries `{P : Platform} (refs : list Reference) : string :=
  match refs with
  | [] => EmptyString
  | r :: rest => prompt_entry r +:+ prompt_entries rest
  end.

(** The package variables other than the store. *)
Definition settings (s : state) :=
  (openAIAPIKey s, openAILanguageModel s, openAIEmbeddingModel s,
   similarityThreshold s, templates s).

(** A directory entry that is not a directory. *)
Definition regular (f : DirEntry) : bool := negb (IsDir f).

(** What the index template writes: a link per cited reference, an item per
    citation, and the page around them ([None]: no response yet). *)
Definition page_link `{P : Platform} (r : Reference) : string :=
  String.concat dq ["<a href="; "/references/"]
  +:+ print EscURL (VString (File r))
  +:+ String.concat dq [EmptyString; ">"]
  +:+ print EscText (VString (File r))
  +:+ "</a>".

Fixpoint page_links `{P : Platform} (refs : list Reference) : string :=
  match refs with
  | [] => EmptyString
  | r :: rest => page_link r +:+ page_links rest
  end.

Definition page_citation `{P : Platform} (c : Citation) : string :=
  "
<li>" +:+ print EscText (VString (Claim c)) +:+ " "
  +:+ page_links (References c) +:+ "</li>
".

Fixpoint page_citations `{P : Platform} (cs : list Citation) : string :=
  match cs with
  | [] => EmptyString
  | c :: rest => page_citation c +:+ page_citations rest
  end.

Definition index_page `{P : Platform} (title : string)
    (response : option CitedResponse) : string :=
  static_text TMPL_INDEX 0
  +:+ print EscText (VString title)
  +:+ static_text TMPL_INDEX 2
  +:+ match response with
      | Some c =>
          "
<p>Commentary: " +:+ print EscText (VString (Commentary c)) +:+ "</p>

References:
<ul>
" +:+ page_citations (Citations c) +:+ "
</ul>

"
      | None => "
<p>Submit a query to get a response.</p>
"
      end
  +:+ static_text TMPL_INDEX 4.

(** The data [Handler] passes to the index template. *)
Definition index_data (title : string) (response : option CitedResponse) : value :=
  VStruct [("Title", VString title);
           ("Response", match response with
                        | Some c => value_of_CitedResponse c
                        | None => VNil
                        end)].

(** *** The formula of the specification *)

(** Following the specification: cosine similarity is dot(a,b) / (|a| * |b|).
    Here in float64, the sums taken in index order from 0 and every operation
    rounded. *)
Module Cosine.

Definition dot (a b : list float) : float :=
  fold_left (fun acc xy => (acc + fst xy * snd xy)%float) (zip a b) 0%float.

Definition magnitude (a : list float) : float := PrimFloat.sqrt (dot a a).

Definition cosine (a b : list float) : float :=
  (dot a b / (magnitude a * magnitude b))%float.

End Cosine.

(** The same formula over the real numbers the components stand for. *)
Module Exact.

(** The real number of a finite binary64 value (an infinity or a NaN stands
    for none, and is given 0). *)
Definition real (x : float) : R :=
  match Prim2SF x with
  | S754_finite s m e => (IZR (cond_Zopp s (Zpos m)) * powerRZ 2 e)%R
  | _ => 0%R
  end.

Definition dot (a b : list float) : R :=
  fold_right (fun xy acc => (real (fst xy) * real (snd xy) + acc)%R) 0%R (zip a b).

Definition magnitude (a : list float) : R := sqrt (dot a a).

Definition cosine (a b : list float) : R :=
  (dot a b / (magnitude a * magnitude b))%R.

End Exact.

Module AtThreshold.
Import Fixture.

Definition fact : string := "half".

(** The stored fact embeds to (0, -6, 6), every query to (7, -7, 0): the
    angle between them is exactly 60 degrees. *)
Definition scenario : Fixture.scenario :=
  mkScenario [("half.txt", fact)]
    (fun text => if String.eqb text fact
                 then [0%float; (-6)%float; 6%float]
                 else [7%float; (-7)%float; 0%float])
    (status sky) true (expansion sky) (answer sky).

Definition reference : Reference :=
  mkReference "half.txt" fact [0%float; (-6)%float; 6%float].

End AtThreshold.

(** One term of a sum of products. *)
Definition plus_product (acc : float) (xy : float * float) : float :=
  (acc + fst xy * snd xy)%float.


(** * Properties *)

(** ** Facts about binary64 *)

Module FloatFacts.

Ltac classify :=
  unfold isZ, isN, isZN, SF64mul, SF64add, SF64div, SF64sqrt in *;
  repeat match goal with
         | |- context [Prim2SF ?x] =>
             is_var x; destruct (Prim2SF x) as [[|]| [|] | | [|] ? ?]
         end;
  simpl in *; try discriminate; try reflexivity.

Lemma isZ_isZN x : isZ x -> isZN x.
Proof. unfold isZ, isZN. intros ->. reflexivity. Qed.

Lemma mul_zero_l x y : isZ x -> isZN (x * y)%float.
Proof. unfold isZ, isZN. rewrite mul_spec. classify. Qed.

Lemma mul_zero_r x y : isZ y -> isZN (x * y)%float.
Proof. unfold isZ, isZN. rewrite mul_spec. classify. Qed.

Lemma mul_zero_zero x y : isZ x -> isZ y -> isZ (x * y)%float.
Proof. unfold isZ. rewrite mul_spec. classify. Qed.

Lemma add_zero_zero x y : isZ x -> isZ y -> isZ (x + y)%float.
Proof. unfold isZ. rewrite add_spec. classify. Qed.

Lemma add_ZN x y : isZN x -> isZN y -> isZN (x + y)%float.
Proof. unfold isZN. rewrite add_spec. classify. Qed.

Lemma sqrt_zero x : isZ x -> isZ (PrimFloat.sqrt x).
Proof. unfold isZ. rewrite sqrt_spec. classify. Qed.

Lemma div_ZN x y : isZN x -> isZN y -> isN (x / y)%float.
Proof. unfold isZN, isN. rewrite div_spec. classify. Qed.

(** The computable tests of [PrimFloat] agree with the classification. *)
Lemma is_nan_spec x : PrimFloat.is_nan x = sf_nan (Prim2SF x).
Proof.
  unfold PrimFloat.is_nan. rewrite FloatAxioms.eqb_spec. unfold SFeqb.
  destruct (Prim2SF x) as [[|]| [|] | | [|] m e]; simpl; try reflexivity;
    rewrite Z.compare_refl, Pos.compare_cont_refl; reflexivity.
Qed.

Lemma is_zero_spec x : PrimFloat.is_zero x = sf_zero (Prim2SF x).
Proof.
  unfold PrimFloat.is_zero. rewrite FloatAxioms.eqb_spec. unfold SFeqb.
  change (Prim2SF zero) with (S754_zero false).
  destruct (Prim2SF x) as [[|]| [|] | | [|] m e]; reflexivity.
Qed.

(** NaN is unordered: [t < NaN] is false (Go's [NaN > t]). *)
Lemma ltb_nan_r t x : isN x -> (t <? x)%float = false.
Proof.
  unfold isN. rewrite ltb_spec. unfold SFltb, SFcompare.
  destruct (Prim2SF x); try discriminate. intros _.
  destruct (Prim2SF t); reflexivity.
Qed.

End FloatFacts.


(** ** Cosine similarity *)

Module SimilarityFacts.
Import Similarity FloatFacts.

Example same_direction :
  CalculateSimilarity [1%float; 0%float] [1%float; 0%float] = Ok 1%float.
Proof. vm_compute. reflexivity. Qed.

Example orthogonal :
  CalculateSimilarity [1%float; 0%float] [0%float; 1%float] = Ok 0%float.
Proof. vm_compute. reflexivity. Qed.

(** With [b] long enough the loop runs to its end. *)
Lemma loop_defined rest : forall b i acc,
  i + length rest <= length b -> exists acc', loop rest b i acc = Ok acc'.
Proof.
  induction rest as [|x rest IH]; intros b i acc Hlen; simpl in *.
  - eauto.
  - destruct (lookup_lt_is_Some_2 b i) as [y Hy]; [lia|].
    rewrite Hy. apply IH. lia.
Qed.

(** With [b] too short the loop panics at index [len(b)]. *)
Lemma loop_short rest : forall b i acc,
  i <= length b -> length b < i + length rest ->
  loop rest b i acc = Panic (IndexOutOfRange (length b) (length b)).
Proof.
  induction rest as [|x rest IH]; intros b i acc Hi Hlen; simpl in *.
  - lia.
  - destruct (b !! i) as [y|] eqn:Hy.
    + apply lookup_lt_Some in Hy. apply IH; lia.
    + apply lookup_ge_None_1 in Hy. replace i with (length b) by lia.
      reflexivity.
Qed.

(** The loop reads [b] below [len(a)] only. *)
Lemma loop_take rest : forall b n i acc,
  i + length rest <= n -> loop rest (take n b) i acc = loop rest b i acc.
Proof.
  induction rest as [|x rest IH]; intros b n i acc Hn; simpl in *.
  - reflexivity.
  - rewrite lookup_take_lt by lia.
    destruct (b !! i) as [y|] eqn:Hy.
    + apply IH. lia.
    + apply lookup_ge_None_1 in Hy.
      rewrite length_take_ge by lia. reflexivity.
Qed.

Lemma CalculateSimilarity_defined a b :
  length a <= length b -> exists v, CalculateSimilarity a b = Ok v.
Proof.
  intros Hlen. unfold CalculateSimilarity.
  destruct (loop_defined a b 0 zero_sums) as [acc ->]; [simpl; lia|].
  simpl. eauto.
Qed.

Lemma CalculateSimilarity_short a b :
  length b < length a ->
  CalculateSimilarity a b = Panic (IndexOutOfRange (length b) (length b)).
Proof.
  intros Hlen. unfold CalculateSimilarity.
  rewrite loop_short by (simpl; lia). reflexivity.
Qed.

Lemma CalculateSimilarity_take a b :
  CalculateSimilarity a (take (length a) b) = CalculateSimilarity a b.
Proof.
  unfold CalculateSimilarity. rewrite loop_take by (simpl; lia). reflexivity.
Qed.

(** *** A vector of zeros *)

Lemma zero_sums_a : a_zero_inv zero_sums.
Proof. split; vm_compute; reflexivity. Qed.

Lemma zero_sums_b : b_zero_inv zero_sums.
Proof. split; vm_compute; reflexivity. Qed.

Lemma step_a_zero acc x y : a_zero_inv acc -> isZ x -> a_zero_inv (step acc x y).
Proof.
  intros [Hd Ha] Hx. split; simpl.
  - apply add_ZN; [assumption | apply mul_zero_l; assumption].
  - apply add_zero_zero; [assumption | apply mul_zero_zero; assumption].
Qed.

Lemma step_b_zero acc x y : b_zero_inv acc -> isZ y -> b_zero_inv (step acc x y).
Proof.
  intros [Hd Hb] Hy. split; simpl.
  - apply add_ZN; [assumption | apply mul_zero_r; assumption].
  - apply add_zero_zero; [assumption | apply mul_zero_zero; assumption].
Qed.

Lemma loop_a_zero rest : forall b i acc acc',
  Forall isZ rest -> a_zero_inv acc ->
  loop rest b i acc = Ok acc' -> a_zero_inv acc'.
Proof.
  induction rest as [|x rest IH]; intros b i acc acc' Hz Hinv Hrun; simpl in *.
  - congruence.
  - apply Forall_cons in Hz as [Hx Hz].
    destruct (b !! i) as [y|]; [|discriminate].
    eapply IH; [exact Hz | | exact Hrun]. apply step_a_zero; assumption.
Qed.

Lemma loop_b_zero rest : forall b i acc acc',
  (forall j y, b !! j = Some y -> isZ y) -> b_zero_inv acc ->
  loop rest b i acc = Ok acc' -> b_zero_inv acc'.
Proof.
  induction rest as [|x rest IH]; intros b i acc acc' Hz Hinv Hrun; simpl in *.
  - congruence.
  - destruct (b !! i) as [y|] eqn:Hy; [|discriminate].
    eapply IH; [exact Hz | | exact Hrun]. apply step_b_zero; eauto.
Qed.

Lemma finish_a_zero acc : a_zero_inv acc -> isN (finish acc).
Proof.
  intros [Hd Ha]. unfold finish. apply div_ZN; [assumption|].
  apply mul_zero_l, sqrt_zero, Ha.
Qed.

Lemma finish_b_zero acc : b_zero_inv acc -> isN (finish acc).
Proof.
  intros [Hd Hb]. unfold finish. apply div_ZN; [assumption|].
  apply mul_zero_r, sqrt_zero, Hb.
Qed.

(** A zero vector on either side scores NaN against any vector of its
    dimension. *)
Lemma zero_vector_scores_nan a b :
  length a = length b -> Forall isZ a \/ Forall isZ b ->
  exists v, CalculateSimilarity a b = Ok v /\ isN v.
Proof.
  intros Hlen Hz. unfold CalculateSimilarity.
  destruct (loop_defined a b 0 zero_sums) as [acc Hacc]; [simpl; lia|].
  rewrite Hacc. simpl. eexists; split; [reflexivity|].
  destruct Hz as [Hz|Hz].
  - apply finish_a_zero. eapply loop_a_zero; [exact Hz | apply zero_sums_a | exact Hacc].
  - apply finish_b_zero. eapply loop_b_zero; [ | apply zero_sums_b | exact Hacc].
    intros j y Hj. rewrite Forall_forall in Hz. apply Hz.
    eapply list_elem_of_lookup_2, Hj.
Qed.

(** Squares that underflow give a computed magnitude of zero for a vector
    that is not zero, and then the score need not be NaN. *)
Example underflow_scores_infinity :
  CalculateSimilarity [0x1p-600%float] [0x1p300%float] = Ok infinity.
Proof. vm_compute. reflexivity. Qed.

End SimilarityFacts.

(** ** Running the monad *)

Section Run.
Context {A B : Type}.

Lemma run_bind (m : M A) (k : A -> M B) s :
  (m ≫= k) s =
  match m s with
  | (Ok a, s') => k a s'
  | (Fatal f, s') => (Fatal f, s')
  | (Panic p, s') => (Panic p, s')
  end.
Proof. reflexivity. Qed.

Lemma run_bind_ok (m : M A) (k : A -> M B) s a s' :
  m s = (Ok a, s') -> (m ≫= k) s = k a s'.
Proof. intros H. rewrite run_bind, H. reflexivity. Qed.

Lemma run_bind_inv (m : M A) (k : A -> M B) s b s2 :
  (m ≫= k) s = (Ok b, s2) ->
  exists a s1, m s = (Ok a, s1) /\ k a s1 = (Ok b, s2).
Proof.
  rewrite run_bind. destruct (m s) as [[a|f|p] s1]; intros H;
    try discriminate. eauto.
Qed.
End Run.

(** ** What a call leaves unchanged *)

Lemma keeps_ret {A} (a : A) : keeps (mret a).
Proof. intros s. reflexivity. Qed.

Lemma keeps_gets {A} (f : state -> A) : keeps (gets f).
Proof. intros s. reflexivity. Qed.

Lemma keeps_lift {A} (r : res A) : keeps (lift r).
Proof. intros s. reflexivity. Qed.

Lemma keeps_log_Fatal {A} (f : fatal) : keeps (@log_Fatal A f).
Proof. intros s. reflexivity. Qed.

Lemma keeps_set_posted v : keeps (modify (set_posted v)).
Proof. intros s. reflexivity. Qed.

Lemma keeps_bind {A B} (m : M A) (k : A -> M B) :
  keeps m -> (forall a, keeps (k a)) -> keeps (m ≫= k).
Proof.
  intros Hm Hk s. rewrite run_bind. specialize (Hm s).
  destruct (m s) as [[a|f|p] s']; simpl in *; try assumption.
  rewrite (Hk a s'). assumption.
Qed.

Lemma keeps_range_ {A} (xs : list A) (body : A -> M ctl) :
  (forall x, keeps (body x)) -> keeps (range_ xs body).
Proof.
  intros Hbody. induction xs as [|x xs IH]; simpl.
  - apply keeps_ret.
  - apply keeps_bind; [apply Hbody | intros _; exact IH].
Qed.

Lemma keeps_foldM {A B} (body : B -> A -> M B) (xs : list A) :
  (forall acc x, keeps (body acc x)) -> forall acc, keeps (foldM body xs acc).
Proof.
  intros Hbody. induction xs as [|x xs IH]; intros acc; simpl.
  - apply keeps_ret.
  - apply keeps_bind; [apply Hbody | intros acc'; apply IH].
Qed.

Create HintDb keeps.
#[global] Hint Resolve keeps_ret keeps_gets keeps_lift keeps_log_Fatal
  keeps_set_posted : keeps.

(** Splits a [keeps] goal along the structure of the code. *)
Ltac keeps_tac :=
  repeat (intros;
    first
      [ solve [auto with keeps]
      | apply keeps_bind
      | apply keeps_range_
      | apply keeps_foldM
      | match goal with
        | |- keeps (match ?x with _ => _ end) => destruct x
        | |- keeps (let _ := _ in _) => cbv zeta
        end ]).

Section ProgramKeeps.
Context `{P : Platform}.

Lemma keeps_toJSON {T} `{JSON T} (v : T) : keeps (toJSON v).
Proof. unfold toJSON. keeps_tac. Qed.

Lemma keeps_fromJSON {T} `{JSON T} data : keeps (@fromJSON T _ data).
Proof. unfold fromJSON. keeps_tac. Qed.

Lemma keeps_doPost url body : keeps (doPost url body).
Proof. unfold doPost. keeps_tac. Qed.

Lemma keeps_RenderTemplate name data : keeps (RenderTemplate name data).
Proof. unfold RenderTemplate. keeps_tac. Qed.

#[local] Hint Resolve keeps_toJSON keeps_fromJSON keeps_doPost keeps_RenderTemplate : keeps.

Lemma keeps_GenerateCompletion text : keeps (GenerateCompletion text).
Proof. unfold GenerateCompletion, NewCompletionRequest. keeps_tac. Qed.

Lemma keeps_GenerateEmbedding text : keeps (GenerateEmbedding text).
Proof. unfold GenerateEmbedding, NewEmbeddingRequest. keeps_tac. Qed.

#[local] Hint Resolve keeps_GenerateCompletion keeps_GenerateEmbedding : keeps.

Lemma keeps_FindReference query : keeps (FindReference query).
Proof. unfold FindReference, scan. keeps_tac. Qed.

Lemma keeps_ExpandQuery query : keeps (ExpandQuery query).
Proof. unfold ExpandQuery. keeps_tac. Qed.

Lemma keeps_GenerateCompletionWithCitations query refs :
  keeps (GenerateCompletionWithCitations query refs).
Proof. unfold GenerateCompletionWithCitations. keeps_tac. Qed.

#[local] Hint Resolve keeps_FindReference keeps_ExpandQuery
  keeps_GenerateCompletionWithCitations : keeps.

Lemma keeps_retrieve queries : keeps (retrieve queries).
Proof. unfold retrieve. keeps_tac. Qed.

#[local] Hint Resolve keeps_retrieve : keeps.

Lemma keeps_Handler r : keeps (Handler r).
Proof. unfold Handler. keeps_tac. Qed.

Lemma serve_globals requests : forall s,
  globals (snd (serve requests s)) = globals s.
Proof.
  induction requests as [|r rest IH]; intros s; simpl.
  - reflexivity.
  - pose proof (keeps_Handler r s) as Hr.
    destruct (Handler r s) as [[reply|f|p] s']; simpl in *;
      try assumption;
      specialize (IH s'); destruct (serve rest s') as [os s'']; simpl in *;
      congruence.
Qed.

End ProgramKeeps.

(** ** A failed provider call ends the process *)

Lemma ff_silent {A} (m : M A) :
  (forall s, posted (snd (m s)) = posted s) -> fails_fast m.
Proof.
  intros H s. exists []. rewrite H, app_nil_r. split; [reflexivity|].
  left. constructor.
Qed.

Lemma ff_ret {A} (a : A) : fails_fast (mret a).
Proof. apply ff_silent. reflexivity. Qed.

Lemma ff_gets {A} (f : state -> A) : fails_fast (gets f).
Proof. apply ff_silent. reflexivity. Qed.

Lemma ff_lift {A} (r : res A) : fails_fast (lift r).
Proof. apply ff_silent. reflexivity. Qed.

Lemma ff_log_Fatal {A} (f : fatal) : fails_fast (@log_Fatal A f).
Proof. apply ff_silent. reflexivity. Qed.

Lemma ff_bind {A B} (m : M A) (k : A -> M B) :
  fails_fast m -> (forall a, fails_fast (k a)) -> fails_fast (m ≫= k).
Proof.
  intros Hm Hk s. rewrite run_bind.
  destruct (Hm s) as (new1 & Hp1 & H1).
  destruct (m s) as [[a|f|p] s1] eqn:Hrun; simpl in *.
  - destruct (Hk a s1) as (new2 & Hp2 & H2).
    exists (new1 ++ new2). rewrite Hp2, Hp1, app_assoc. split; [reflexivity|].
    destruct H1 as [H1|(pre & e & _ & _ & _ & Hf)]; [|discriminate].
    destruct H2 as [H2|(pre & e & -> & Hpre & He & Hf)].
    + left. apply Forall_app. split; assumption.
    + right. exists (new1 ++ pre), e. rewrite app_assoc.
      repeat split; try assumption. apply Forall_app. split; assumption.
  - exists new1. split; [assumption|].
    destruct H1 as [H1|(pre & e & -> & Hpre & He & Hf)]; [left; assumption|].
    right. exists pre, e. repeat split; try assumption. congruence.
  - exists new1. split; [assumption|].
    destruct H1 as [H1|(pre & e & _ & _ & _ & Hf)]; [left; assumption|].
    discriminate.
Qed.

Lemma ff_range_ {A} (xs : list A) (body : A -> M ctl) :
  (forall x, fails_fast (body x)) -> fails_fast (range_ xs body).
Proof.
  intros Hbody. induction xs as [|x xs IH]; simpl.
  - apply ff_ret.
  - apply ff_bind; [apply Hbody | intros _; exact IH].
Qed.

Lemma ff_foldM {A B} (body : B -> A -> M B) (xs : list A) :
  (forall acc x, fails_fast (body acc x)) ->
  forall acc, fails_fast (foldM body xs acc).
Proof.
  intros Hbody. induction xs as [|x xs IH]; intros acc; simpl.
  - apply ff_ret.
  - apply ff_bind; [apply Hbody | intros acc'; apply IH].
Qed.

Create HintDb ff.
#[global] Hint Resolve ff_ret ff_gets ff_lift ff_log_Fatal : ff.

Ltac ff_tac :=
  repeat (intros;
    first
      [ solve [auto with ff]
      | apply ff_bind
      | apply ff_range_
      | apply ff_foldM
      | match goal with
        | |- fails_fast (match ?x with _ => _ end) => destruct x
        | |- fails_fast (let _ := _ in _) => cbv zeta
        end ]).

Section ProgramFailsFast.
Context `{P : Platform}.

(** [doPost] in one step: the call is recorded, an accepted reply yields
    its body, anything else is fatal. *)
Lemma doPost_run url body s :
  let o := provider (posted s) (openAIAPIKey s) url body in
  doPost url body s =
  (match o with
   | Response status (Some bytes) =>
       if (status =? 200)%Z then Ok bytes else Fatal (fatal_of o)
   | _ => Fatal (fatal_of o)
   end,
   set_posted (posted s ++ [mkExchange url body o]) s).
Proof.
  unfold doPost, mbind, M_bind, gets, modify, log_Fatal, mret, M_ret.
  cbv zeta. cbv beta iota.
  destruct (provider (posted s) (openAIAPIKey s) url body)
    as [| |status [bytes|]]; cbn -[Z.eqb]; try reflexivity;
    destruct (status =? 200)%Z; reflexivity.
Qed.

Lemma ff_doPost url body : fails_fast (doPost url body).
Proof.
  intros s. rewrite doPost_run. cbv zeta.
  set (o := provider (posted s) (openAIAPIKey s) url body).
  exists [mkExchange url body o]. split; [reflexivity|].
  destruct (accepted o) eqn:Hacc.
  - left. repeat constructor. exact Hacc.
  - right. exists [], (mkExchange url body o).
    repeat split; [constructor | exact Hacc |].
    destruct o as [| |status [bytes|]]; cbn -[Z.eqb] in *; try reflexivity.
    rewrite Hacc. reflexivity.
Qed.

Lemma ff_toJSON {T} `{JSON T} (v : T) : fails_fast (toJSON v).
Proof. unfold toJSON. ff_tac. Qed.

Lemma ff_fromJSON {T} `{JSON T} data : fails_fast (@fromJSON T _ data).
Proof. unfold fromJSON. ff_tac. Qed.

Lemma ff_RenderTemplate name data : fails_fast (RenderTemplate name data).
Proof. unfold RenderTemplate. ff_tac. Qed.

#[local] Hint Resolve ff_doPost ff_toJSON ff_fromJSON ff_RenderTemplate : ff.

Lemma ff_GenerateCompletion text : fails_fast (GenerateCompletion text).
Proof. unfold GenerateCompletion, NewCompletionRequest. ff_tac. Qed.

Lemma ff_GenerateEmbedding text : fails_fast (GenerateEmbedding text).
Proof. unfold GenerateEmbedding, NewEmbeddingRequest. ff_tac. Qed.

#[local] Hint Resolve ff_GenerateCompletion ff_GenerateEmbedding : ff.

Lemma ff_FindReference query : fails_fast (FindReference query).
Proof. unfold FindReference, scan. ff_tac. Qed.

Lemma ff_ExpandQuery query : fails_fast (ExpandQuery query).
Proof. unfold ExpandQuery. ff_tac. Qed.

Lemma ff_GenerateCompletionWithCitations query refs :
  fails_fast (GenerateCompletionWithCitations query refs).
Proof. unfold GenerateCompletionWithCitations. ff_tac. Qed.

#[local] Hint Resolve ff_FindReference ff_ExpandQuery
  ff_GenerateCompletionWithCitations : ff.

Lemma ff_retrieve queries : fails_fast (retrieve queries).
Proof. unfold retrieve. ff_tac. Qed.

#[local] Hint Resolve ff_retrieve : ff.

Lemma ff_Handler r : fails_fast (Handler r).
Proof. unfold Handler. ff_tac. Qed.

End ProgramFailsFast.

(** ** The similarity lookup *)

Section Lookup.
Context `{P : Platform}.

Lemma run_ret {A} (a : A) s : (mret a : M A) s = (Ok a, s).
Proof. reflexivity. Qed.

(** The inner loop over [result] compares file names and changes nothing:
    its [continue] goes on with the inner loop. *)
Lemma inner_loop_noop (result : list Reference) (reference : Reference) s :
  range_ result (fun r =>
    if String.eqb (File r) (File reference) then mret Continue
    else mret Next) s = (Ok tt, s).
Proof.
  induction result as [|r result IH]; simpl.
  - reflexivity.
  - rewrite run_bind. destruct (String.eqb (File r) (File reference));
      rewrite run_ret; exact IH.
Qed.

Lemma scan_run e result r s :
  scan e result r s =
  (match CalculateSimilarity e (Embedding r) with
   | Ok sim => Ok (if (similarityThreshold s <? sim)%float
                   then result ++ [r] else result)
   | Fatal f => Fatal f
   | Panic p => Panic p
   end, s).
Proof.
  unfold scan. rewrite run_bind, inner_loop_noop.
  rewrite run_bind. unfold lift.
  destruct (CalculateSimilarity e (Embedding r)) as [sim|f|p]; try reflexivity.
  rewrite run_bind. unfold gets.
  destruct (similarityThreshold s <? sim)%float; reflexivity.
Qed.

Lemma foldM_scan_total e refs : forall acc s,
  Forall (fun r => exists sim, CalculateSimilarity e (Embedding r) = Ok sim) refs ->
  foldM (scan e) refs acc s =
  (Ok (acc ++ List.filter (above (similarityThreshold s) e) refs), s).
Proof.
  induction refs as [|r refs IH]; intros acc s Hdef; simpl.
  - rewrite app_nil_r. reflexivity.
  - apply Forall_cons in Hdef as [[sim Hsim] Hdef].
    rewrite run_bind, scan_run. unfold above at 1. rewrite Hsim.
    rewrite IH by assumption.
    destruct (similarityThreshold s <? sim)%float; simpl.
    + rewrite <- app_assoc. reflexivity.
    + reflexivity.
Qed.

Lemma foldM_scan_inv e refs : forall acc s result s',
  foldM (scan e) refs acc s = (Ok result, s') ->
  Forall (fun r => exists sim, CalculateSimilarity e (Embedding r) = Ok sim) refs.
Proof.
  induction refs as [|r refs IH]; intros acc s result s' Hrun; simpl in *.
  - constructor.
  - rewrite run_bind, scan_run in Hrun.
    destruct (CalculateSimilarity e (Embedding r)) as [sim|f|p] eqn:Hsim;
      try discriminate.
    constructor; [eauto | eapply IH; exact Hrun].
Qed.

(** [FindReference] after its embedding call. *)
Lemma FindReference_run query s e s1 :
  GenerateEmbedding query s = (Ok e, s1) ->
  FindReference query s = foldM (scan e) (references s) [] s1.
Proof.
  intros He. unfold FindReference. rewrite (run_bind_ok _ _ _ _ _ He).
  rewrite run_bind. unfold gets.
  pose proof (keeps_GenerateEmbedding query s) as Hk. rewrite He in Hk.
  simpl in Hk. unfold globals in Hk.
  replace (references s1) with (references s) by congruence. reflexivity.
Qed.

Lemma threshold_after_embedding query s e s1 :
  GenerateEmbedding query s = (Ok e, s1) ->
  similarityThreshold s1 = similarityThreshold s.
Proof.
  intros He. pose proof (keeps_GenerateEmbedding query s) as Hk.
  rewrite He in Hk. simpl in Hk. unfold globals in Hk. congruence.
Qed.

End Lookup.

(** * The claims *)

(** ** Similarity *)

(** C7 as the code has it: [CalculateSimilarity] checks no dimension.  With
    [b] shorter than [a] the read of [b[len(b)]] panics (index out of range);
    with [b] longer than [a] the components of [b] from [len(a)] on are never
    read and the call returns the score of [a] against the first [len(a)]
    components of [b]. *)
Theorem mismatched_dimensions_unchecked (a b : list float) :
  (length b < length a ->
   CalculateSimilarity a b = Panic (IndexOutOfRange (length b) (length b))) /\
  (length a < length b ->
   exists sim, CalculateSimilarity a b = Ok sim /\
               CalculateSimilarity a (take (length a) b) = Ok sim).
Proof.
  split; intros Hlen.
  - apply SimilarityFacts.CalculateSimilarity_short. exact Hlen.
  - destruct (SimilarityFacts.CalculateSimilarity_defined a b) as [sim Hsim]; [lia|].
    exists sim. rewrite SimilarityFacts.CalculateSimilarity_take. split; exact Hsim.
Qed.

(** Both cases on small vectors. *)
Lemma mismatched_dimensions_unchecked_witness :
  CalculateSimilarity [1%float; 0%float] [1%float]
    = Panic (IndexOutOfRange 1 1) /\
  exists sim, CalculateSimilarity [1%float] [1%float; 5%float] = Ok sim /\
              CalculateSimilarity [1%float] (take 1 [1%float; 5%float]) = Ok sim.
Proof.
  split.
  - apply (proj1 (mismatched_dimensions_unchecked [1%float; 0%float] [1%float])).
    simpl. lia.
  - apply (proj2 (mismatched_dimensions_unchecked [1%float] [1%float; 5%float])).
    simpl. lia.
Defined.

(** C7 as stated fails: a shorter second vector panics, and a longer one
    yields a score with no error at all. *)
Lemma mismatched_dimensions_counterexample :
  CalculateSimilarity [1%float; 0%float] [1%float]
    = Panic (IndexOutOfRange 1 1) /\
  CalculateSimilarity [1%float] [1%float; 5%float] = Ok 1%float.
Proof. split; vm_compute; reflexivity. Qed.

Section LookupClaims.
Context `{P : Platform}.

(** C10: a vector of zeros on either side scores NaN against every vector
    of its dimension, NaN is above no threshold, and every reference
    [FindReference] returns has a score that is not NaN. *)
Theorem zero_magnitude_scores_nan_and_is_never_returned :
  (forall a b : list float,
     length a = length b ->
     Forall (fun x => PrimFloat.is_zero x = true) a \/
     Forall (fun x => PrimFloat.is_zero x = true) b ->
     exists sim, CalculateSimilarity a b = Ok sim /\
                 PrimFloat.is_nan sim = true /\
                 forall threshold, (threshold <? sim)%float = false) /\
  (forall query s result s',
     FindReference query s = (Ok result, s') ->
     exists e s1, GenerateEmbedding query s = (Ok e, s1) /\
       Forall (fun r => exists sim,
                 CalculateSimilarity e (Embedding r) = Ok sim /\
                 PrimFloat.is_nan sim = false) result).
Proof.
  split.
  - intros a b Hlen Hz.
    destruct (SimilarityFacts.zero_vector_scores_nan a b Hlen) as (sim & Hsim & Hnan).
    + destruct Hz as [Hz|Hz]; [left|right];
        (eapply Forall_impl; [exact Hz|]); intros x Hx; simpl in Hx;
        unfold isZ; rewrite <- FloatFacts.is_zero_spec; exact Hx.
    + exists sim. split; [exact Hsim|]. split.
      * rewrite FloatFacts.is_nan_spec. exact Hnan.
      * intros threshold. apply FloatFacts.ltb_nan_r. exact Hnan.
  - intros query s result s' Hrun.
    pose proof Hrun as Hrun'. unfold FindReference in Hrun'.
    apply run_bind_inv in Hrun' as (e & s1 & He & _).
    exists e, s1. split; [exact He|].
    rewrite (FindReference_run _ _ _ _ He) in Hrun.
    pose proof (foldM_scan_inv _ _ _ _ _ _ Hrun) as Hdef.
    rewrite (foldM_scan_total _ _ _ _ Hdef) in Hrun.
    injection Hrun as <- _. simpl.
    apply Forall_forall. intros r Hr.
    apply list_elem_of_In, filter_In in Hr as [_ Habove].
    unfold above in Habove.
    destruct (CalculateSimilarity e (Embedding r)) as [sim|f|p];
      try discriminate.
    exists sim. split; [reflexivity|].
    rewrite FloatFacts.is_nan_spec.
    destruct (sf_nan (Prim2SF sim)) eqn:Hnan; [|reflexivity].
    rewrite (FloatFacts.ltb_nan_r _ _ Hnan) in Habove. discriminate.
Qed.

End LookupClaims.

(** A vector of a positive and a negative zero. *)
Lemma zero_magnitude_scores_nan_witness :
  exists sim,
    CalculateSimilarity [0%float; (-0)%float] [1%float; 2%float] = Ok sim /\
    PrimFloat.is_nan sim = true /\
    forall threshold, (threshold <? sim)%float = false.
Proof.
  apply (proj1 (@zero_magnitude_scores_nan_and_is_never_returned
                  (Fixture.platform Fixture.sky))).
  - reflexivity.
  - left. repeat constructor.
Defined.

(** ** The store is read only while requests are served *)

Section StoreClaims.
Context `{P : Platform}.

Lemma keeps_references {A} (m : M A) s :
  keeps m -> references (snd (m s)) = references s.
Proof. intros Hk. specialize (Hk s). unfold globals in Hk. congruence. Qed.


End StoreClaims.

(** ** Failures of the provider and of decoding *)

Section FailureClaims.
Context `{P : Platform}.

(** C4 as the code has it: when a call posted while a request is handled
    gets a response whose status is not 200, [doPost] ends the process with
    [log.Fatalf]: the request ends in that fatal exit, with the status and
    the body of the response, and the server serves no request after it. *)
Theorem provider_failure_exits_the_process r rest s e code body :
  e ∈ drop (length (posted s)) (posted (snd (Handler r s))) ->
  ex_outcome e = Response code body ->
  code <> 200%Z ->
  fst (Handler r s)
    = Fatal (UnexpectedStatusCode code (default EmptyString body)) /\
  fst (serve (r :: rest) s)
    = [Fatal (UnexpectedStatusCode code (default EmptyString body))].
Proof.
  intros Hin Ho Hcode.
  assert (Hbad : accepted (ex_outcome e) = false).
  { rewrite Ho. simpl. destruct body; [apply Z.eqb_neq; exact Hcode | reflexivity]. }
  assert (Hfatal : fatal_of (ex_outcome e)
                   = UnexpectedStatusCode code (default EmptyString body)).
  { rewrite Ho. simpl. apply Z.eqb_neq in Hcode. rewrite Hcode. reflexivity. }
  assert (Hexit : fst (Handler r s)
                  = Fatal (UnexpectedStatusCode code (default EmptyString body))).
  { destruct (ff_Handler r s) as (new & Hp & [Hall|(pre & e' & -> & Hpre & He' & Hf)]).
    - rewrite Hp, drop_app_length in Hin.
      unfold all_accepted in Hall. rewrite Forall_forall in Hall.
      rewrite (Hall e Hin) in Hbad. discriminate.
    - rewrite Hp, drop_app_length in Hin.
      apply elem_of_app in Hin as [Hin|Hin].
      + unfold all_accepted in Hpre. rewrite Forall_forall in Hpre.
        rewrite (Hpre e Hin) in Hbad. discriminate.
      + apply list_elem_of_singleton in Hin. subst e'.
        rewrite Hf, Hfatal. reflexivity. }
  split; [exact Hexit|].
  simpl. destruct (Handler r s) as [o s']. simpl in Hexit. subst o.
  reflexivity.
Qed.

(** [GenerateCompletion] once its request is encoded and answered. *)
Lemma GenerateCompletion_run text s body bytes s1 :
  Marshal (AddMessage
             (AddMessage
                (mkCompletionRequest (openAILanguageModel s) []
                                     {[ "type" := "json_object" ]})
                "system" openAICompletionSystemPrompt)
             "user" text) = Some body ->
  doPost openAICompletionURL body s = (Ok bytes, s1) ->
  GenerateCompletion text s =
  (match @Unmarshal CompletionResponse _ bytes with
   | None => Fatal FailedToUnmarshal
   | Some completionResponse => Content completionResponse
   end, s1).
Proof.
  intros Hbody Hpost.
  unfold GenerateCompletion, NewCompletionRequest, toJSON, fromJSON.
  unfold mbind, M_bind, mret, M_ret, gets, lift, log_Fatal.
  rewrite Hbody, Hpost.
  destruct (@Unmarshal CompletionResponse _ bytes) as [resp|]; [|reflexivity].
  destruct (Content resp); reflexivity.
Qed.

(** Composition is rendering, one completion, and decoding its content. *)
Lemma compose_run query refs s prompt s0 :
  RenderTemplate "response"
    (VStruct [("Query", VString query);
              ("References", VSlice (map value_of_Reference refs))]) s
    = (Ok prompt, s0) ->
  GenerateCompletionWithCitations query refs s =
  match GenerateCompletion prompt s0 with
  | (Ok content, s1) =>
      (match Unmarshal content with
       | Some citedResponse => Ok citedResponse
       | None => Fatal FailedToUnmarshal
       end, s1)
  | (Fatal f, s1) => (Fatal f, s1)
  | (Panic p, s1) => (Panic p, s1)
  end.
Proof.
  intros Hrender. unfold GenerateCompletionWithCitations.
  rewrite (run_bind_ok _ _ _ _ _ Hrender), run_bind.
  destruct (GenerateCompletion prompt s0) as [[content|f|p] s1]; try reflexivity.
  unfold fromJSON. destruct (Unmarshal content); reflexivity.
Qed.

(** C3 as the code has it: when the body the provider sent for the cited
    answer is not JSON, or the content of its first choice is not JSON,
    [fromJSON] ends the process with [log.Fatalln]; a content that decodes is
    returned as decoded, whatever fields it left empty. *)
Theorem cited_completion_decodes_or_exits query refs s prompt s0 body bytes s1 :
  RenderTemplate "response"
    (VStruct [("Query", VString query);
              ("References", VSlice (map value_of_Reference refs))]) s
    = (Ok prompt, s0) ->
  Marshal (AddMessage
             (AddMessage
                (mkCompletionRequest (openAILanguageModel s0) []
                                     {[ "type" := "json_object" ]})
                "system" openAICompletionSystemPrompt)
             "user" prompt) = Some body ->
  doPost openAICompletionURL body s0 = (Ok bytes, s1) ->
  (@Unmarshal CompletionResponse _ bytes = None ->
   GenerateCompletionWithCitations query refs s = (Fatal FailedToUnmarshal, s1)) /\
  (forall completionResponse content,
     Unmarshal bytes = Some completionResponse ->
     Content completionResponse = Ok content ->
     GenerateCompletionWithCitations query refs s =
     (match Unmarshal content with
      | Some citedResponse => Ok citedResponse
      | None => Fatal FailedToUnmarshal
      end, s1)).
Proof.
  intros Hrender Hbody Hpost.
  pose proof (GenerateCompletion_run _ _ _ _ _ Hbody Hpost) as Hgen.
  rewrite (compose_run _ _ _ _ _ Hrender), Hgen.
  split.
  - intros ->. reflexivity.
  - intros resp content -> ->. reflexivity.
Qed.

End FailureClaims.

(** The cited completion of the [malformed] scenario has a choice whose
    content does not decode. *)
Lemma cited_completion_decodes_or_exits_witness :
  exists s1,
    @GenerateCompletionWithCitations (Fixture.platform Fixture.malformed)
      Fixture.query [] (Fixture.loaded Fixture.malformed)
    = (Fatal FailedToUnmarshal, s1).
Proof.
  eexists.
  edestruct (@cited_completion_decodes_or_exits (Fixture.platform Fixture.malformed)
               Fixture.query [] (Fixture.loaded Fixture.malformed)) as [_ H].
  - vm_compute. reflexivity.
  - vm_compute. reflexivity.
  - vm_compute. reflexivity.
  - erewrite H.
    + vm_compute. reflexivity.
    + vm_compute. reflexivity.
    + vm_compute. reflexivity.
Defined.

(** The expansion call of the [provider_down] scenario is answered 500. *)
Lemma provider_failure_exits_the_process_witness :
  let P := Fixture.platform Fixture.provider_down in
  let s := Fixture.loaded Fixture.provider_down in
  let r := Fixture.post Fixture.query in
  fst (Handler r s) = Fatal (UnexpectedStatusCode 500 "expansion") /\
  fst (serve [r; r] s) = [Fatal (UnexpectedStatusCode 500 "expansion")].
Proof.
  cbv zeta.
  apply (@provider_failure_exits_the_process
           (Fixture.platform Fixture.provider_down)
           (Fixture.post Fixture.query) [Fixture.post Fixture.query]
           (Fixture.loaded Fixture.provider_down)
           (default (mkExchange EmptyString EmptyString RequestError)
              (last (posted (snd (@Handler (Fixture.platform Fixture.provider_down)
                                    (Fixture.post Fixture.query)
                                    (Fixture.loaded Fixture.provider_down))))))
           500%Z (Some "expansion")).
  - vm_compute. constructor.
  - vm_compute. reflexivity.
  - discriminate.
Defined.

(** C4 as stated fails: a 500 from the completion endpoint ends the process,
    and of two requests only the first has an outcome, the fatal exit. *)
Lemma provider_failure_counterexample :
  fst (@serve (Fixture.platform Fixture.provider_down)
         [Fixture.post Fixture.query; Fixture.post Fixture.query]
         (Fixture.loaded Fixture.provider_down))
  = [Fatal (UnexpectedStatusCode 500 "expansion")].
Proof. vm_compute. reflexivity. Qed.

(** C3 as stated fails: a cited completion that is not JSON ends the process
    (no second request is served), and an empty list of choices panics. *)
Lemma malformed_completion_counterexample :
  fst (@GenerateCompletionWithCitations (Fixture.platform Fixture.malformed)
         Fixture.query [] (Fixture.loaded Fixture.malformed))
    = Fatal FailedToUnmarshal /\
  fst (@serve (Fixture.platform Fixture.malformed)
         [Fixture.post Fixture.query; Fixture.post Fixture.query]
         (Fixture.loaded Fixture.malformed))
    = [Fatal FailedToUnmarshal] /\
  fst (@GenerateCompletionWithCitations (Fixture.platform Fixture.no_choices)
         Fixture.query [] (Fixture.loaded Fixture.no_choices))
    = Panic (IndexOutOfRange 0 0).
Proof. repeat split; vm_compute; reflexivity. Qed.

(** ** Composition on an empty candidate set *)

Lemma prefix_app needle : forall hay,
  String.prefix needle hay = true -> exists post, hay = needle +:+ post.
Proof.
  induction needle as [|c needle IH]; intros hay Hp; simpl in *.
  - exists hay. reflexivity.
  - destruct hay as [|c' hay]; [discriminate|].
    unfold String.prefix in Hp; fold String.prefix in Hp.
    destruct (Ascii.ascii_dec c c') as [->|]; [|discriminate].
    destruct (IH hay Hp) as [post ->]. exists post. reflexivity.
Qed.

Lemma occurs_contains needle : forall hay,
  occurs needle hay = true -> contains needle hay.
Proof.
  induction hay as [|c hay IH]; intros H; cbn [occurs] in H.
  - rewrite orb_false_r in H. apply prefix_app in H as [post Hp].
    exists EmptyString, post. exact Hp.
  - apply orb_true_iff in H as [H|H].
    + apply prefix_app in H as [post Hp]. exists EmptyString, post. exact Hp.
    + destruct (IH H) as (pre & post & ->).
      exists (String c pre), post. reflexivity.
Qed.

Section ComposeClaims.
Context `{P : Platform}.

(** C8 as the code has it: with no candidate the prompt rendered from the
    loaded response template contains the sentence on missing references
    (static text of the template); the answer is the decoded content of
    the completion, citations included, whatever their number. *)
Theorem empty_candidates_prompt_and_answer query s :
  templates s !! "response" = Some TMPL_PROMPT_RESPONSE ->
  exists prompt,
    RenderTemplate "response"
      (VStruct [("Query", VString query);
                ("References", VSlice (map value_of_Reference []))]) s
      = (Ok prompt, s) /\
    contains no_references_sentence prompt /\
    forall content s1 citedResponse,
      GenerateCompletion prompt s = (Ok content, s1) ->
      Unmarshal content = Some citedResponse ->
      GenerateCompletionWithCitations query [] s = (Ok citedResponse, s1).
Proof.
  intros Ht.
  eexists. split; [|split].
  - unfold RenderTemplate. rewrite run_bind. unfold gets. rewrite Ht.
    cbv [TMPL_PROMPT_RESPONSE Template.Execute Template.exec Template.eval
         Template.assoc map value_of_Reference String.eqb Ascii.eqb Bool.eqb].
    reflexivity.
  - exists "
INSTRUCTIONS

Respond to the following QUERY using REFERENCES below. Cite the a file in the
REFERENCES that contains the fact used. Provide uncited commentary separately.
". eexists. unfold no_references_sentence. reflexivity.
  - intros content s1 citedResponse Hgen Hdec.
    erewrite compose_run.
    + rewrite Hgen, Hdec. reflexivity.
    + unfold RenderTemplate. rewrite run_bind. unfold gets. rewrite Ht.
      reflexivity.
Qed.

End ComposeClaims.

(** The loaded state of the sky scenario holds the response template. *)
Lemma empty_candidates_prompt_and_answer_witness :
  let P := Fixture.platform Fixture.sky in
  let s := Fixture.loaded Fixture.sky in
  exists prompt,
    RenderTemplate "response"
      (VStruct [("Query", VString Fixture.query);
                ("References", VSlice (map value_of_Reference []))]) s
      = (Ok prompt, s) /\
    contains no_references_sentence prompt /\
    forall content s1 citedResponse,
      GenerateCompletion prompt s = (Ok content, s1) ->
      Unmarshal content = Some citedResponse ->
      GenerateCompletionWithCitations Fixture.query [] s = (Ok citedResponse, s1).
Proof.
  cbv zeta.
  apply (@empty_candidates_prompt_and_answer (Fixture.platform Fixture.sky)
           Fixture.query (Fixture.loaded Fixture.sky)).
  vm_compute. reflexivity.
Defined.

(** C8 as stated fails: with no candidate at all the answer carries the
    citation the model wrote. *)
Lemma empty_candidates_counterexample :
  exists citedResponse,
    fst (@GenerateCompletionWithCitations (Fixture.platform Fixture.sky)
           Fixture.query [] (Fixture.loaded Fixture.sky)) = Ok citedResponse /\
    length (Citations citedResponse) = 1.
Proof. eexists. split; vm_compute; reflexivity. Qed.

(** ** The running pipeline on the sky scenario *)

(** C2, evaluated: one stored fact and two expanded queries that both match
    it.  The candidate set handed to composition holds the fact twice: the
    inner loop of [FindReference] drops nothing, and [Handler] appends the
    lookups of the queries one after the other. *)
Theorem retrieve_returns_a_fact_twice :
  let P := Fixture.platform Fixture.sky in
  let s := Fixture.loaded Fixture.sky in
  references s = [Fixture.sky_reference] /\
  fst (ExpandQuery Fixture.query s)
    = Ok (mkQueryExpansionResponse
            ["why is the sky blue?"; "what causes sky color"]) /\
  fst (retrieve ["why is the sky blue?"; "what causes sky color"] s)
    = Ok [Fixture.sky_reference; Fixture.sky_reference].
Proof. cbv zeta. repeat split; vm_compute; reflexivity. Qed.

(** C5, evaluated: the model answers the expansion prompt with one query
    that is not the original.  [Handler] looks up that query only: the
    original query is embedded nowhere. *)
Theorem original_query_is_not_looked_up :
  let P := Fixture.platform Fixture.without_original in
  let s := Fixture.loaded Fixture.without_original in
  fst (ExpandQuery Fixture.query s)
    = Ok (mkQueryExpansionResponse ["what causes sky color"]) /\
  embedded_texts (Fixture.post Fixture.query) s = ["what causes sky color"] /\
  ~ In Fixture.query (embedded_texts (Fixture.post Fixture.query) s).
Proof.
  cbv zeta. repeat split; try (vm_compute; reflexivity).
  vm_compute. intros [H|[]]. discriminate H.
Qed.

(** C1, evaluated: the model cites ghost.txt.  Whether ghost.txt is in the
    store or not, [Handler] writes the same page, with the same link to
    ghost.txt: no reference is checked against the store and none is
    flagged. *)
Theorem Handler_reply_is_the_same_whether_the_cited_file_exists :
  ~ In "ghost.txt" (map File (references (Fixture.loaded Fixture.cites_ghost))) /\
  In "ghost.txt" (map File (references (Fixture.loaded Fixture.ghost_stored))) /\
  exists page,
    fst (@Handler (Fixture.platform Fixture.cites_ghost)
           (Fixture.post Fixture.query) (Fixture.loaded Fixture.cites_ghost))
      = Ok (Written page) /\
    fst (@Handler (Fixture.platform Fixture.ghost_stored)
           (Fixture.post Fixture.query) (Fixture.loaded Fixture.ghost_stored))
      = Ok (Written page) /\
    contains "/references/ghost.txt" page.
Proof.
  split; [|split].
  - vm_compute. intros [H|[]]. discriminate H.
  - vm_compute. left. reflexivity.
  - eexists. split; [vm_compute; reflexivity|]. split; [vm_compute; reflexivity|].
    apply occurs_contains. vm_compute. reflexivity.
Qed.

(** * Further properties of main.go *)

(** ** Symmetry of the score *)

Module FloatAlgebra.

Lemma Prim2SF_inj x y : Prim2SF x = Prim2SF y -> x = y.
Proof.
  intros H. rewrite <- (SF2Prim_Prim2SF x), <- (SF2Prim_Prim2SF y), H.
  reflexivity.
Qed.

Lemma SFmul_comm x y : SF64mul x y = SF64mul y x.
Proof.
  unfold SF64mul, SFmul.
  destruct x as [sx|sx| |sx mx ex], y as [sy|sy| |sy my ey];
    try reflexivity; rewrite (xorb_comm sx sy); try reflexivity.
  rewrite (Pos.mul_comm mx my), (Z.add_comm ex ey). reflexivity.
Qed.

Lemma mul_comm x y : (x * y)%float = (y * x)%float.
Proof. apply Prim2SF_inj. rewrite !mul_spec. apply SFmul_comm. Qed.

End FloatAlgebra.

Module SimilaritySymmetry.
Import Similarity.

(** The accumulators with the two magnitudes exchanged. *)
Definition swap (acc : sums) : sums :=
  Sums (dotProduct acc) (bMagnitude acc) (aMagnitude acc).

Lemma step_swap acc x y : step (swap acc) y x = swap (step acc x y).
Proof. unfold step, swap. simpl. rewrite (FloatAlgebra.mul_comm y x). reflexivity. Qed.

Lemma finish_swap acc : finish (swap acc) = finish acc.
Proof. unfold finish, swap. simpl. rewrite FloatAlgebra.mul_comm. reflexivity. Qed.

(** The loop over [a] indexing [b] is the left fold of [step] over the
    pairs of components. *)
Lemma loop_zip rest : forall b i acc,
  i + length rest <= length b ->
  loop rest b i acc =
  Ok (fold_left (fun acc xy => step acc (fst xy) (snd xy)) (zip rest (drop i b)) acc).
Proof.
  induction rest as [|x rest IH]; intros b i acc Hlen; simpl in *.
  - reflexivity.
  - destruct (lookup_lt_is_Some_2 b i) as [y Hy]; [lia|].
    rewrite Hy. rewrite (drop_S _ _ _ Hy). simpl. apply IH. lia.
Qed.

Lemma fold_swap a : forall b acc,
  fold_left (fun acc xy => step acc (fst xy) (snd xy)) (zip b a) (swap acc) =
  swap (fold_left (fun acc xy => step acc (fst xy) (snd xy)) (zip a b) acc).
Proof.
  induction a as [|x a IH]; intros [|y b] acc; simpl; try reflexivity.
  rewrite step_swap. apply IH.
Qed.

End SimilaritySymmetry.

(** X1: for vectors of one dimension [CalculateSimilarity] is symmetric, bit
    for bit: the score of [a] against [b] is the score of [b] against [a]. *)
Theorem CalculateSimilarity_symmetric (a b : list float) :
  length a = length b -> CalculateSimilarity a b = CalculateSimilarity b a.
Proof.
  intros Hlen. unfold CalculateSimilarity.
  rewrite !SimilaritySymmetry.loop_zip by (simpl; lia).
  simpl. rewrite !drop_0.
  change zero_sums with (SimilaritySymmetry.swap zero_sums) at 2.
  rewrite SimilaritySymmetry.fold_swap, SimilaritySymmetry.finish_swap.
  reflexivity.
Qed.

(** Two vectors of two components. *)
Lemma CalculateSimilarity_symmetric_witness :
  CalculateSimilarity [1%float; 2%float] [3%float; (-4)%float]
  = CalculateSimilarity [3%float; (-4)%float] [1%float; 2%float].
Proof. apply CalculateSimilarity_symmetric. reflexivity. Defined.

(** ** Edges of the lookup *)

Section LookupEdges.
Context `{P : Platform}.

Lemma filter_none {A} (f : A -> bool) (l : list A) :
  (forall x, f x = false) -> List.filter f l = [].
Proof.
  intros Hf. induction l as [|x l IH]; simpl; [reflexivity|].
  rewrite Hf. exact IH.
Qed.

(** X2: the loop of [CalculateSimilarity] runs over [len(a)], so an empty
    first vector scores NaN against every vector; when the provider returns an
    empty embedding for the query, [FindReference] returns no reference. *)
Theorem empty_query_embedding_matches_nothing query s s1 :
  GenerateEmbedding query s = (Ok [], s1) ->
  (forall b, exists sim, CalculateSimilarity [] b = Ok sim /\ PrimFloat.is_nan sim = true) /\
  FindReference query s = (Ok [], s1).
Proof.
  intros He. split.
  - intros b. exists nan. split; reflexivity.
  - rewrite (FindReference_run _ _ _ _ He), foldM_scan_total.
    + rewrite filter_none; [reflexivity|].
      intros r. unfold above. change (CalculateSimilarity [] (Embedding r)) with (@Ok float nan).
      apply FloatFacts.ltb_nan_r. reflexivity.
    + apply Forall_forall. intros r _. exists nan. reflexivity.
Qed.

(** The scan stops at the first stored embedding that is too short. *)
Lemma foldM_scan_short e refs : forall acc s,
  Exists (fun r => length (Embedding r) < length e) refs ->
  exists r0, r0 ∈ refs /\ length (Embedding r0) < length e /\
    foldM (scan e) refs acc s =
    (Panic (IndexOutOfRange (length (Embedding r0)) (length (Embedding r0))), s).
Proof.
  induction refs as [|r refs IH]; intros acc s Hex.
  - inversion Hex.
  - simpl. rewrite run_bind, scan_run.
    destruct (lt_dec (length (Embedding r)) (length e)) as [Hlt|Hge].
    + exists r. split; [constructor|]. split; [exact Hlt|].
      rewrite (SimilarityFacts.CalculateSimilarity_short _ _ Hlt). reflexivity.
    + destruct (SimilarityFacts.CalculateSimilarity_defined e (Embedding r))
        as [sim Hsim]; [lia|].
      rewrite Hsim.
      apply Exists_cons in Hex as [Hex|Hex]; [contradiction|].
      destruct (IH (if (similarityThreshold s <? sim)%float then acc ++ [r] else acc) s Hex)
        as (r0 & Hin & Hlt & Hrun).
      exists r0. split; [constructor; exact Hin|]. split; [exact Hlt|exact Hrun].
Qed.

(** X3: when a stored embedding is shorter than the query embedding,
    [FindReference] returns nothing: it panics with the index out of range of
    such a stored reference (the first one in store order). *)
Theorem FindReference_panics_on_a_shorter_stored_embedding query s e s1 :
  GenerateEmbedding query s = (Ok e, s1) ->
  Exists (fun r => length (Embedding r) < length e) (references s) ->
  exists r0, r0 ∈ references s /\ length (Embedding r0) < length e /\
    FindReference query s =
    (Panic (IndexOutOfRange (length (Embedding r0)) (length (Embedding r0))), s1).
Proof.
  intros He Hex. rewrite (FindReference_run _ _ _ _ He).
  apply foldM_scan_short. exact Hex.
Qed.

End LookupEdges.

(** Every text embeds to the empty vector. *)
Lemma empty_query_embedding_matches_nothing_witness :
  let P := Fixture.platform Scenarios.empty_vectors in
  let s := Fixture.loaded Scenarios.empty_vectors in
  (forall b, exists sim, CalculateSimilarity [] b = Ok sim /\ PrimFloat.is_nan sim = true) /\
  FindReference Fixture.query s = (Ok [], snd (GenerateEmbedding Fixture.query s)).
Proof.
  cbv zeta.
  apply (@empty_query_embedding_matches_nothing
           (Fixture.platform Scenarios.empty_vectors)).
  vm_compute. reflexivity.
Defined.


(** The stored fact has one component, the query two. *)
Lemma FindReference_panics_on_a_shorter_stored_embedding_witness :
  let P := Fixture.platform Scenarios.short_fact in
  let s := Fixture.loaded Scenarios.short_fact in
  exists r0, r0 ∈ references s /\ length (Embedding r0) < 2 /\
    FindReference Fixture.query s =
    (Panic (IndexOutOfRange (length (Embedding r0)) (length (Embedding r0))),
     snd (GenerateEmbedding Fixture.query s)).
Proof.
  cbv zeta.
  apply (@FindReference_panics_on_a_shorter_stored_embedding
           (Fixture.platform Scenarios.short_fact) Fixture.query
           (Fixture.loaded Scenarios.short_fact) [1%float; 0%float]).
  - vm_compute. reflexivity.
  - vm_compute. constructor. lia.
Defined.

(** ** The shape of the candidates *)

Section RetrievalShape.
Context `{P : Platform}.

Lemma filter_sublist {A} (f : A -> bool) (l : list A) :
  List.filter f l `sublist_of` l.
Proof.
  induction l as [|x l IH]; simpl; [constructor|].
  destruct (f x); [apply sublist_skip | apply sublist_cons]; exact IH.
Qed.

Lemma map_sublist {A B} (f : A -> B) (l1 l2 : list A) :
  l1 `sublist_of` l2 -> map f l1 `sublist_of` map f l2.
Proof.
  induction 1; simpl; [constructor | apply sublist_skip | apply sublist_cons];
    assumption.
Qed.

(** A lookup that returns is the filter of the store, whatever the
    dimensions. *)
Lemma FindReference_inv query s result s' :
  FindReference query s = (Ok result, s') ->
  exists e, result = List.filter (above (similarityThreshold s) e) (references s).
Proof.
  intros Hrun. pose proof Hrun as Hrun'. unfold FindReference in Hrun'.
  apply run_bind_inv in Hrun' as (e & s1 & He & _).
  rewrite (FindReference_run _ _ _ _ He) in Hrun.
  pose proof (foldM_scan_inv _ _ _ _ _ _ Hrun) as Hdef.
  rewrite (foldM_scan_total _ _ _ _ Hdef) in Hrun.
  injection Hrun as <- _. exists e.
  rewrite (threshold_after_embedding _ _ _ _ He). reflexivity.
Qed.

(** X4: one lookup returns a sublist of the store: stored references, in
    store order, none more often than it is stored.  With distinct file names
    in the store, the file names of one lookup are distinct. *)
Theorem one_lookup_returns_a_sublist_of_the_store query s result s' :
  FindReference query s = (Ok result, s') ->
  result `sublist_of` references s /\
  (NoDup (map File (references s)) -> NoDup (map File result)).
Proof.
  intros Hrun. destruct (FindReference_inv _ _ _ _ Hrun) as [e ->].
  split.
  - apply filter_sublist.
  - intros Hnd.
    eapply sublist_NoDup; [exact Hnd | apply map_sublist, filter_sublist].
Qed.

(** The loop of [retrieve] from an accumulator. *)
Lemma retrieve_from acc queries : forall s,
  foldM (fun references query =>
           found ← FindReference query; mret (references ++ found))
        queries acc s =
  match retrieve queries s with
  | (Ok found, s') => (Ok (acc ++ found), s')
  | (Fatal f, s') => (Fatal f, s')
  | (Panic p, s') => (Panic p, s')
  end.
Proof.
  unfold retrieve. revert acc.
  induction queries as [|query queries IH]; intros acc s; simpl.
  - rewrite app_nil_r. reflexivity.
  - rewrite !run_bind.
    destruct (FindReference query s) as [[found|f|p] s1]; try reflexivity.
    rewrite !run_ret. simpl. rewrite (IH (acc ++ found)), (IH found).
    destruct (foldM _ queries [] s1) as [[rest|f|p] s2]; try reflexivity.
    simpl. rewrite app_assoc. reflexivity.
Qed.

(** X5: retrieval over a list of queries is retrieval over its parts, one
    after the other, with the results appended: nothing is merged or dropped
    between queries. *)
Theorem retrieve_appends_the_lookups queries1 queries2 s found1 s1 found2 s2 :
  retrieve queries1 s = (Ok found1, s1) ->
  retrieve queries2 s1 = (Ok found2, s2) ->
  retrieve (queries1 ++ queries2) s = (Ok (found1 ++ found2), s2).
Proof.
  revert s found1. induction queries1 as [|query queries1 IH];
    intros s found1 H1 H2.
  - injection H1 as <- <-. exact H2.
  - unfold retrieve in H1 |- *. simpl in H1 |- *.
    rewrite run_bind in H1 |- *. rewrite run_bind in H1 |- *.
    destruct (FindReference query s) as [[found|f|p] s0]; try discriminate.
    rewrite run_ret in H1 |- *.
    rewrite retrieve_from in H1 |- *.
    destruct (retrieve queries1 s0) as [[rest|f|p] s0'] eqn:Hrest;
      try discriminate.
    injection H1 as <- <-.
    rewrite (IH _ _ Hrest H2). simpl. rewrite app_assoc. reflexivity.
Qed.

(** X6: every candidate handed to composition is a reference of the store,
    with its stored excerpt and embedding. *)
Theorem every_candidate_is_a_stored_reference queries : forall s result s',
  retrieve queries s = (Ok result, s') ->
  Forall (fun r => r ∈ references s) result.
Proof.
  induction queries as [|query queries IH]; intros s result s' Hrun.
  - injection Hrun as <- _. constructor.
  - unfold retrieve in Hrun. simpl in Hrun. rewrite !run_bind in Hrun.
    destruct (FindReference query s) as [[found|f|p] s0] eqn:Hfound;
      try discriminate.
    rewrite run_ret, retrieve_from in Hrun.
    destruct (retrieve queries s0) as [[rest|f|p] s0'] eqn:Hrest;
      try discriminate.
    injection Hrun as <- _. simpl.
    apply Forall_app. split.
    + destruct (FindReference_inv _ _ _ _ Hfound) as [e ->].
      apply Forall_forall. intros r Hr.
      eapply sublist_subseteq; [apply filter_sublist | exact Hr].
    + pose proof (keeps_references (FindReference query) s
                    (keeps_FindReference query)) as Hk.
      rewrite Hfound in Hk. simpl in Hk. rewrite <- Hk.
      eapply IH. exact Hrest.
Qed.

End RetrievalShape.

(** The lookup of the original query in the sky scenario. *)
Lemma one_lookup_returns_a_sublist_of_the_store_witness :
  let P := Fixture.platform Fixture.sky in
  let s := Fixture.loaded Fixture.sky in
  [Fixture.sky_reference] `sublist_of` references s /\
  (NoDup (map File (references s)) -> NoDup (map File [Fixture.sky_reference])).
Proof.
  cbv zeta.
  apply (@one_lookup_returns_a_sublist_of_the_store
           (Fixture.platform Fixture.sky) Fixture.query
           (Fixture.loaded Fixture.sky) [Fixture.sky_reference]
           (snd (@FindReference (Fixture.platform Fixture.sky) Fixture.query
                   (Fixture.loaded Fixture.sky)))).
  vm_compute. reflexivity.
Defined.

(** The two expanded queries of the sky scenario, one at a time. *)
Lemma retrieve_appends_the_lookups_witness :
  let P := Fixture.platform Fixture.sky in
  let s := Fixture.loaded Fixture.sky in
  let s1 := snd (retrieve ["why is the sky blue?"] s) in
  let s2 := snd (retrieve ["what causes sky color"] s1) in
  retrieve (["why is the sky blue?"] ++ ["what causes sky color"]) s
  = (Ok ([Fixture.sky_reference] ++ [Fixture.sky_reference]), s2).
Proof.
  cbv zeta.
  apply (@retrieve_appends_the_lookups (Fixture.platform Fixture.sky)
           ["why is the sky blue?"] ["what causes sky color"]
           (Fixture.loaded Fixture.sky) [Fixture.sky_reference]
           (snd (@retrieve (Fixture.platform Fixture.sky) ["why is the sky blue?"]
                   (Fixture.loaded Fixture.sky)))).
  - vm_compute. reflexivity.
  - vm_compute. reflexivity.
Defined.

(** Both expanded queries of the sky scenario. *)
Lemma every_candidate_is_a_stored_reference_witness :
  let s := Fixture.loaded Fixture.sky in
  Forall (fun r => r ∈ references s)
         [Fixture.sky_reference; Fixture.sky_reference].
Proof.
  cbv zeta.
  apply (@every_candidate_is_a_stored_reference (Fixture.platform Fixture.sky)
           ["why is the sky blue?"; "what causes sky color"]
           (Fixture.loaded Fixture.sky) _
           (snd (@retrieve (Fixture.platform Fixture.sky)
                   ["why is the sky blue?"; "what causes sky color"]
                   (Fixture.loaded Fixture.sky)))).
  vm_compute. reflexivity.
Defined.

(** ** The calls of one request *)

Section CallSequence.
Context `{P : Platform}.

Lemma posts_ret {A} (a : A) : posts (mret a) [].
Proof. intros s b s' H. injection H as _ <-. exists []. rewrite app_nil_r. split; reflexivity. Qed.

Lemma posts_gets {A} (f : state -> A) : posts (gets f) [].
Proof. intros s b s' H. injection H as _ <-. exists []. rewrite app_nil_r. split; reflexivity. Qed.

Lemma posts_lift {A} (r : res A) : posts (lift r) [].
Proof. intros s b s' H. injection H as _ <-. exists []. rewrite app_nil_r. split; reflexivity. Qed.

Lemma posts_log_Fatal {A} (f : fatal) : posts (@log_Fatal A f) [].
Proof. intros s b s' H. discriminate. Qed.

Lemma posts_bind {A B} (m : M A) (k : A -> M B) us vs :
  posts m us -> (forall a, posts (k a) vs) -> posts (m ≫= k) (us ++ vs).
Proof.
  intros Hm Hk s b s' Hrun.
  apply run_bind_inv in Hrun as (a & s1 & Hrun1 & Hrun2).
  destruct (Hm _ _ _ Hrun1) as (new1 & Hp1 & Hu1).
  destruct (Hk a _ _ _ Hrun2) as (new2 & Hp2 & Hu2).
  exists (new1 ++ new2). rewrite Hp2, Hp1, app_assoc, map_app, Hu1, Hu2.
  split; reflexivity.
Qed.

Lemma posts_doPost url body : posts (doPost url body) [url].
Proof.
  intros s bytes s' Hrun. rewrite doPost_run in Hrun. cbv zeta in Hrun.
  injection Hrun as _ <-. eexists. split; reflexivity.
Qed.

Lemma posts_toJSON {T} `{JSON T} (v : T) : posts (toJSON v) [].
Proof. unfold toJSON. destruct (Marshal v); [apply posts_ret | apply posts_log_Fatal]. Qed.

Lemma posts_fromJSON {T} `{JSON T} data : posts (@fromJSON T _ data) [].
Proof. unfold fromJSON. destruct (Unmarshal data); [apply posts_ret | apply posts_log_Fatal]. Qed.

Lemma posts_RenderTemplate name data : posts (RenderTemplate name data) [].
Proof.
  unfold RenderTemplate. apply (posts_bind _ _ [] []); [apply posts_gets|].
  intros tmpls. destruct (tmpls !! name); [|apply posts_lift].
  destruct (Template.Execute print l data); [apply posts_ret | apply posts_log_Fatal].
Qed.

Lemma posts_GenerateCompletion text :
  posts (GenerateCompletion text) [openAICompletionURL].
Proof.
  unfold GenerateCompletion, NewCompletionRequest.
  apply (posts_bind _ _ [] [openAICompletionURL]).
  { apply (posts_bind _ _ [] []); [apply posts_gets | intros; apply posts_ret]. }
  intros r0. cbv zeta.
  apply (posts_bind _ _ [] [openAICompletionURL]); [apply posts_toJSON|].
  intros body.
  apply (posts_bind _ _ [openAICompletionURL] []); [apply posts_doPost|].
  intros bytes.
  apply (posts_bind _ _ [] []); [apply posts_fromJSON | intros; apply posts_lift].
Qed.

Lemma posts_GenerateEmbedding text :
  posts (GenerateEmbedding text) [openAIEmbeddingURL].
Proof.
  unfold GenerateEmbedding, NewEmbeddingRequest.
  apply (posts_bind _ _ [] [openAIEmbeddingURL]).
  { apply (posts_bind _ _ [] []); [apply posts_gets | intros; apply posts_ret]. }
  intros r0.
  apply (posts_bind _ _ [] [openAIEmbeddingURL]); [apply posts_toJSON|].
  intros body.
  apply (posts_bind _ _ [openAIEmbeddingURL] []); [apply posts_doPost|].
  intros bytes.
  apply (posts_bind _ _ [] []); [apply posts_fromJSON | intros; apply posts_lift].
Qed.

Lemma posts_inner_loop (result : list Reference) (reference : Reference) :
  posts (range_ result (fun r =>
           if String.eqb (File r) (File reference) then mret Continue
           else mret Next)) [].
Proof.
  intros s u s' H. rewrite inner_loop_noop in H. injection H as _ <-.
  exists []. rewrite app_nil_r. split; reflexivity.
Qed.

Lemma posts_scan e result reference : posts (scan e result reference) [].
Proof.
  unfold scan.
  apply (posts_bind _ _ [] []); [apply posts_inner_loop|]. intros _.
  apply (posts_bind _ _ [] []); [apply posts_lift|]. intros sim.
  apply (posts_bind _ _ [] []); [apply posts_gets|]. intros threshold.
  destruct (threshold <? sim)%float; apply posts_ret.
Qed.

Lemma posts_foldM_silent {A B} (body : B -> A -> M B) (xs : list A) :
  (forall acc x, posts (body acc x) []) -> forall acc, posts (foldM body xs acc) [].
Proof.
  intros Hbody. induction xs as [|x xs IH]; intros acc; simpl.
  - apply posts_ret.
  - apply (posts_bind _ _ [] []); [apply Hbody | intros; apply IH].
Qed.

Lemma posts_FindReference query :
  posts (FindReference query) [openAIEmbeddingURL].
Proof.
  unfold FindReference.
  apply (posts_bind _ _ [openAIEmbeddingURL] []); [apply posts_GenerateEmbedding|].
  intros e.
  apply (posts_bind _ _ [] []); [apply posts_gets|]. intros refs.
  apply posts_foldM_silent. intros; apply posts_scan.
Qed.

Lemma posts_retrieve queries :
  posts (retrieve queries) (replicate (length queries) openAIEmbeddingURL).
Proof.
  unfold retrieve. generalize (@nil Reference).
  induction queries as [|query queries IH]; intros acc; simpl.
  - apply posts_ret.
  - apply (posts_bind _ _ [openAIEmbeddingURL]).
    + apply (posts_bind _ _ [openAIEmbeddingURL] []);
        [apply posts_FindReference | intros; apply posts_ret].
    + intros acc'. apply IH.
Qed.

Lemma posts_ExpandQuery query : posts (ExpandQuery query) [openAICompletionURL].
Proof.
  unfold ExpandQuery.
  apply (posts_bind _ _ [] [openAICompletionURL]); [apply posts_RenderTemplate|].
  intros prompt.
  apply (posts_bind _ _ [openAICompletionURL] []);
    [apply posts_GenerateCompletion | intros; apply posts_fromJSON].
Qed.

Lemma posts_GenerateCompletionWithCitations query refs :
  posts (GenerateCompletionWithCitations query refs) [openAICompletionURL].
Proof.
  unfold GenerateCompletionWithCitations.
  apply (posts_bind _ _ [] [openAICompletionURL]); [apply posts_RenderTemplate|].
  intros prompt.
  apply (posts_bind _ _ [openAICompletionURL] []);
    [apply posts_GenerateCompletion | intros; apply posts_fromJSON].
Qed.

(** X7: a POST that is answered made exactly these provider calls, in this
    order: one completion call (the expansion), one embedding call per
    expanded query, one completion call (the cited answer). *)
Theorem a_served_query_calls_the_provider_in_order r s reply s' :
  Method r = MethodPost ->
  Handler r s = (Ok reply, s') ->
  exists expanded s1 new,
    ExpandQuery (FormValue r "query") s = (Ok expanded, s1) /\
    posted s' = posted s ++ new /\
    map ex_url new =
      [openAICompletionURL]
      ++ replicate (length (Queries expanded)) openAIEmbeddingURL
      ++ [openAICompletionURL].
Proof.
  intros Hm Hrun. unfold Handler in Hrun. rewrite Hm in Hrun.
  change (String.eqb MethodPost MethodPost) with true in Hrun. cbv iota zeta in Hrun.
  apply run_bind_inv in Hrun as (expanded & s1 & Hexp & Hrun).
  apply run_bind_inv in Hrun as (refs & s2 & Hret & Hrun).
  apply run_bind_inv in Hrun as (response & s3 & Hgen & Hrun).
  apply run_bind_inv in Hrun as (page & s4 & Hpage & Hrun).
  injection Hrun as _ <-.
  destruct (posts_ExpandQuery _ _ _ _ Hexp) as (n1 & Hp1 & Hu1).
  destruct (posts_retrieve _ _ _ _ Hret) as (n2 & Hp2 & Hu2).
  destruct (posts_GenerateCompletionWithCitations _ _ _ _ _ Hgen) as (n3 & Hp3 & Hu3).
  destruct (posts_RenderTemplate _ _ _ _ _ Hpage) as (n4 & Hp4 & Hu4).
  exists expanded, s1, (n1 ++ n2 ++ n3 ++ n4). split; [exact Hexp|].
  split.
  - rewrite Hp4, Hp3, Hp2, Hp1, <- !app_assoc. reflexivity.
  - rewrite !map_app, Hu1, Hu2, Hu3, Hu4, app_nil_r. reflexivity.
Qed.

End CallSequence.

(** The request of the sky scenario. *)
Lemma a_served_query_calls_the_provider_in_order_witness :
  let P := Fixture.platform Fixture.sky in
  let s := Fixture.loaded Fixture.sky in
  let r := Fixture.post Fixture.query in
  exists expanded s1 new,
    ExpandQuery (FormValue r "query") s = (Ok expanded, s1) /\
    posted (snd (Handler r s)) = posted s ++ new /\
    map ex_url new =
      [openAICompletionURL]
      ++ replicate (length (Queries expanded)) openAIEmbeddingURL
      ++ [openAICompletionURL].
Proof.
  cbv zeta.
  eapply (@a_served_query_calls_the_provider_in_order (Fixture.platform Fixture.sky)).
  - reflexivity.
  - vm_compute. reflexivity.
Defined.

(** ** Rendering *)

Lemma string_app_assoc (a b c : string) : (a +:+ b) +:+ c = a +:+ (b +:+ c).
Proof.
  induction a as [|ch a IH]; [reflexivity|].
  change (String ch ((a +:+ b) +:+ c) = String ch (a +:+ b +:+ c)).
  rewrite IH. reflexivity.
Qed.

Lemma contains_app_l needle a b : contains needle a -> contains needle (a +:+ b).
Proof.
  intros (pre & post & ->). exists pre, (post +:+ b).
  rewrite !string_app_assoc. reflexivity.
Qed.

Lemma contains_app_r needle a b : contains needle b -> contains needle (a +:+ b).
Proof.
  intros (pre & post & ->). exists (a +:+ pre), post.
  rewrite !string_app_assoc. reflexivity.
Qed.

Section Rendering.
Context `{P : Platform}.

(** The equations of [exec] for its two block actions. *)
Lemma exec_Range path body dot :
  Template.exec print (Range path body) dot =
  match Template.eval path dot with
  | Some (VSlice items) => each body items
  | Some VNil => Some EmptyString
  | _ => None
  end.
Proof.
  simpl. destruct (Template.eval path dot) as [[| | |items|]|]; try reflexivity.
  match goal with
  | |- ?each' _ = _ =>
      match each' with
      | context [match ?block _ _ with _ => _ end] =>
          assert (Hblock : forall ns d, block ns d = Template.Execute print ns d)
      end
  end.
  { induction ns as [|n ns IH]; intros d; [reflexivity|].
    simpl. rewrite IH. reflexivity. }
  induction items as [|item items IH]; [reflexivity|].
  simpl. rewrite Hblock. simpl in IH. rewrite IH. reflexivity.
Qed.

Lemma Execute_cons n t data :
  Template.Execute print (n :: t) data =
  match Template.exec print n data with
  | None => None
  | Some out =>
      match Template.Execute print t data with
      | None => None
      | Some out' => Some (out +:+ out')
      end
  end.
Proof. reflexivity. Qed.

(** The body of the range of the response template, on the candidates. *)
Lemma each_candidate refs :
  each [Text "
- File: "; Field EscText ["File"]; Text "
- Exerpt: "; Field EscText ["Exerpt"]; Text "
"] (map value_of_Reference refs) = Some (prompt_entries refs).
Proof.
  induction refs as [|r refs IH]; [reflexivity|].
  change (map value_of_Reference (r :: refs))
    with (value_of_Reference r :: map value_of_Reference refs).
  cbn [each]. rewrite IH. reflexivity.
Qed.

(** X9: with the response template loaded, the prompt is the static text
    of the template around the escaped query and, for every candidate in
    candidate order (repeats included), its file name and its excerpt; the
    embedding is never written. *)
Theorem the_prompt_lists_every_candidate_in_order query refs s :
  templates s !! "response" = Some TMPL_PROMPT_RESPONSE ->
  RenderTemplate "response"
    (VStruct [("Query", VString query);
              ("References", VSlice (map value_of_Reference refs))]) s
  = (Ok (static_text TMPL_PROMPT_RESPONSE 0
         +:+ print EscText (VString query)
         +:+ static_text TMPL_PROMPT_RESPONSE 2
         +:+ prompt_entries refs
         +:+ static_text TMPL_PROMPT_RESPONSE 4), s).
Proof.
  intros Ht. unfold RenderTemplate. rewrite run_bind. unfold gets. rewrite Ht.
  unfold TMPL_PROMPT_RESPONSE at 1.
  rewrite !Execute_cons, exec_Range.
  change (Template.eval ["References"] _)
    with (Some (VSlice (map value_of_Reference refs))).
  cbv iota. rewrite each_candidate.
  reflexivity.
Qed.

End Rendering.

(** The sky fact, twice. *)
Lemma the_prompt_lists_every_candidate_in_order_witness :
  let P := Fixture.platform Fixture.sky in
  let s := Fixture.loaded Fixture.sky in
  let refs := [Fixture.sky_reference; Fixture.sky_reference] in
  RenderTemplate "response"
    (VStruct [("Query", VString Fixture.query);
              ("References", VSlice (map value_of_Reference refs))]) s
  = (Ok (static_text TMPL_PROMPT_RESPONSE 0
         +:+ print EscText (VString Fixture.query)
         +:+ static_text TMPL_PROMPT_RESPONSE 2
         +:+ prompt_entries refs
         +:+ static_text TMPL_PROMPT_RESPONSE 4), s).
Proof.
  cbv zeta.
  apply (@the_prompt_lists_every_candidate_in_order (Fixture.platform Fixture.sky)).
  vm_compute. reflexivity.
Defined.

(** ** Requests that are not queries *)

Section OtherMethods.
Context `{P : Platform}.

(** X8: a request whose method is not POST posts no call to the provider.
    Any method other than GET and POST is answered 405 Method not allowed and
    changes nothing; GET writes the index page with the invitation to submit
    a query when the index template is loaded. *)
Theorem only_POST_reaches_the_provider r s :
  Method r <> MethodPost ->
  posted (snd (Handler r s)) = posted s /\
  (Method r <> MethodGet ->
   Handler r s = (Ok (HttpError "Method not allowed" 405), s)) /\
  (Method r = MethodGet ->
   templates s !! "index" = Some TMPL_INDEX ->
   exists page, Handler r s = (Ok (Written page), s) /\
                contains "Submit a query to get a response." page).
Proof.
  intros Hpost. apply String.eqb_neq in Hpost.
  unfold Handler. rewrite Hpost. cbv zeta.
  destruct (String.eqb (Method r) MethodGet) eqn:Hget.
  - assert (Hrender : forall s0,
      posted (snd (RenderTemplate "index"
         (VStruct [("Title", VString "Study"); ("Response", VNil)]) s0)) = posted s0).
    { intros s0. unfold RenderTemplate. rewrite run_bind. unfold gets.
      destruct (templates s0 !! "index") as [t|]; [|reflexivity].
      destruct (Template.Execute print t _); reflexivity. }
    split; [|split].
    + rewrite run_bind. specialize (Hrender s).
      destruct (RenderTemplate "index" _ s) as [[page|f|p] s0]; exact Hrender.
    + intros Hne. apply String.eqb_neq in Hne. congruence.
    + intros _ Ht. eexists. split.
      * rewrite run_bind. unfold RenderTemplate at 1. rewrite run_bind.
        unfold gets. rewrite Ht.
        cbv [TMPL_INDEX Template.Execute Template.exec Template.eval
             Template.truth Template.assoc String.eqb Ascii.eqb Bool.eqb].
        reflexivity.
      * do 3 apply contains_app_r. do 2 apply contains_app_l.
        apply occurs_contains. vm_compute. reflexivity.
  - split; [reflexivity|]. split; [reflexivity|].
    apply String.eqb_neq in Hget. intros Heq. contradiction.
Qed.

End OtherMethods.

(** A GET once the templates are loaded. *)
Lemma only_POST_reaches_the_provider_witness :
  let P := Fixture.platform Fixture.sky in
  let s := Fixture.loaded Fixture.sky in
  let r := mkRequest MethodGet ∅ in
  exists page, Handler r s = (Ok (Written page), s) /\
               contains "Submit a query to get a response." page.
Proof.
  cbv zeta.
  apply (@only_POST_reaches_the_provider (Fixture.platform Fixture.sky)
           (mkRequest MethodGet ∅) (Fixture.loaded Fixture.sky)).
  - discriminate.
  - reflexivity.
  - vm_compute. reflexivity.
Defined.

(** ** Start-up *)

Section Startup.
Context `{P : Platform}.

(** X10: [LoadTemplate] keeps the first template loaded under a name:
    loading into a free name stores the template and returns it, a second
    load under that name returns the first template and stores nothing,
    [RenderTemplate] executes the first template, and no other name, the store
    or the record of calls changes. *)
Theorem the_first_template_loaded_under_a_name_is_kept name t1 t2 s :
  templates s !! name = None ->
  let s1 := snd (LoadTemplate name t1 s) in
  LoadTemplate name t1 s = (Ok t1, s1) /\
  LoadTemplate name t2 s1 = (Ok t1, s1) /\
  (forall data,
     RenderTemplate name data s1 =
     (match Template.Execute print t1 data with
      | Some out => Ok out
      | None => Fatal FailedToExecuteTemplate
      end, s1)) /\
  (forall other, other <> name -> templates s1 !! other = templates s !! other) /\
  references s1 = references s /\ posted s1 = posted s.
Proof.
  intros Hnone. cbv zeta.
  assert (Hrun : LoadTemplate name t1 s
                 = (Ok t1, set_templates (<[ name := t1 ]> (templates s)) s)).
  { unfold LoadTemplate. rewrite run_bind. unfold gets. rewrite Hnone.
    reflexivity. }
  rewrite Hrun. simpl.
  split; [reflexivity|]. split; [|split; [|split; [|split]]].
  - unfold LoadTemplate. rewrite run_bind. unfold gets. simpl.
    rewrite lookup_insert_eq. reflexivity.
  - intros data. unfold RenderTemplate. rewrite run_bind. unfold gets. simpl.
    rewrite lookup_insert_eq.
    destruct (Template.Execute print t1 data); reflexivity.
  - intros other Hother. apply lookup_insert_ne. congruence.
  - reflexivity.
  - reflexivity.
Qed.

(** The loop of [LoadReferences] over the directory entries. *)
Lemma LoadReferences_inv path files : forall s s',
  range_ files (fun file =>
    if IsDir file then mret Continue
    else
      match ReadFile (path +:+ "/" +:+ Name file) with
      | None => log_Fatal (FailedToReadFile (Name file))
      | Some content =>
          let excerpt := content in
          embedding ← GenerateEmbedding excerpt;
          let reference := mkReference (Name file) excerpt embedding in
          refs ← gets references;
          _ ← modify (set_references (refs ++ [reference]));
          mret Next
      end) s = (Ok tt, s') ->
  exists loaded new,
    references s' = references s ++ loaded /\
    map File loaded = map Name (List.filter regular files) /\
    Forall (fun r => ReadFile (path +:+ "/" +:+ File r) = Some (Exerpt r)) loaded /\
    posted s' = posted s ++ new /\
    map ex_url new = replicate (length loaded) openAIEmbeddingURL /\
    settings s' = settings s.
Proof.
  induction files as [|file files IH]; intros s s' Hrun.
  - injection Hrun as <-. exists [], []. rewrite !app_nil_r.
    repeat split; constructor.
  - simpl in Hrun. apply run_bind_inv in Hrun as (c & s0 & Hbody & Hrest).
    unfold regular at 1. simpl List.filter. fold regular.
    destruct (IsDir file) eqn:Hdir.
    + injection Hbody as _ <-. simpl. apply IH. exact Hrest.
    + destruct (ReadFile (path +:+ "/" +:+ Name file)) as [content|] eqn:Hread;
        [|discriminate].
      cbv zeta in Hbody.
      apply run_bind_inv in Hbody as (embedding & s1 & Hemb & Hbody).
      injection Hbody as _ <-.
      destruct (posts_GenerateEmbedding _ _ _ _ Hemb) as (new1 & Hp1 & Hu1).
      pose proof (keeps_GenerateEmbedding content s) as Hk.
      rewrite Hemb in Hk. simpl in Hk. unfold globals in Hk.
      destruct (IH _ _ Hrest) as (loaded & new & Hrefs & Hnames & Hfiles & Hp & Hu & Hset).
      simpl in Hrefs, Hp, Hset.
      exists (mkReference (Name file) content embedding :: loaded), (new1 ++ new).
      split; [|split; [|split; [|split; [|split]]]].
      * rewrite Hrefs, <- app_assoc. simpl. f_equal. congruence.
      * simpl. rewrite Hnames. reflexivity.
      * constructor; [exact Hread | exact Hfiles].
      * rewrite Hp, Hp1, app_assoc. reflexivity.
      * rewrite map_app, Hu1, Hu. reflexivity.
      * rewrite Hset. unfold settings. simpl. congruence.
Qed.

(** X11: when [LoadReferences] returns, the store has grown by one reference
    per regular entry of the directory, in directory order (directories are
    skipped): its file name is the entry's name and its excerpt the content
    read from the file; one embedding call was posted per reference and no
    other package variable changed. *)
Theorem LoadReferences_appends_one_reference_per_regular_file path s s' :
  LoadReferences path s = (Ok tt, s') ->
  exists files loaded new,
    ReadDir path = Some files /\
    references s' = references s ++ loaded /\
    map File loaded = map Name (List.filter regular files) /\
    Forall (fun r => ReadFile (path +:+ "/" +:+ File r) = Some (Exerpt r)) loaded /\
    posted s' = posted s ++ new /\
    map ex_url new = replicate (length loaded) openAIEmbeddingURL /\
    settings s' = settings s.
Proof.
  unfold LoadReferences. intros Hrun.
  destruct (ReadDir path) as [files|]; [|discriminate].
  destruct (LoadReferences_inv _ _ _ _ Hrun) as (loaded & new & H).
  exists files, loaded, new. split; [reflexivity | exact H].
Qed.

End Startup.

(** A directory of two files, loaded into the empty store. *)
Lemma LoadReferences_appends_one_reference_per_regular_file_witness :
  let P := Fixture.platform Fixture.ghost_stored in
  let s' := snd (LoadReferences referencesPath initial) in
  exists files loaded new,
    ReadDir referencesPath = Some files /\
    references s' = references initial ++ loaded /\
    map File loaded = map Name (List.filter regular files) /\
    Forall (fun r => ReadFile (referencesPath +:+ "/" +:+ File r) = Some (Exerpt r)) loaded /\
    posted s' = posted initial ++ new /\
    map ex_url new = replicate (length loaded) openAIEmbeddingURL /\
    settings s' = settings initial.
Proof.
  cbv zeta.
  apply (@LoadReferences_appends_one_reference_per_regular_file
           (Fixture.platform Fixture.ghost_stored)).
  vm_compute. reflexivity.
Defined.

(** The expand template, then another template under its name. *)
Lemma the_first_template_loaded_under_a_name_is_kept_witness :
  let P := Fixture.platform Fixture.sky in
  let s1 := snd (LoadTemplate "expand" TMPL_PROMPT_EXPAND_QUERY initial) in
  LoadTemplate "expand" TMPL_PROMPT_EXPAND_QUERY initial
    = (Ok TMPL_PROMPT_EXPAND_QUERY, s1) /\
  LoadTemplate "expand" TMPL_INDEX s1 = (Ok TMPL_PROMPT_EXPAND_QUERY, s1) /\
  (forall data,
     RenderTemplate "expand" data s1 =
     (match Template.Execute print TMPL_PROMPT_EXPAND_QUERY data with
      | Some out => Ok out
      | None => Fatal FailedToExecuteTemplate
      end, s1)) /\
  (forall other, other <> "expand" ->
     templates s1 !! other = templates initial !! other) /\
  references s1 = references initial /\ posted s1 = posted initial.
Proof.
  cbv zeta.
  apply (@the_first_template_loaded_under_a_name_is_kept
           (Fixture.platform Fixture.sky) "expand"
           TMPL_PROMPT_EXPAND_QUERY TMPL_INDEX initial).
  reflexivity.
Defined.

Section StartupRun.
Context `{P : Platform}.

(** The state [main] has built when it calls [LoadReferences]. *)
Lemma startup_run key :
  LookupEnv openAIAPIKeyEnv = Some key ->
  startup initial =
  LoadReferences referencesPath
    (mkState key
       (getEnv openAILanguageModelEnv openAILanguageModelDefault)
       (getEnv openAIEmbeddingModelEnv openAIEmbeddingModelDefault)
       0.5%float []
       (<[ "response" := TMPL_PROMPT_RESPONSE ]>
          (<[ "expand" := TMPL_PROMPT_EXPAND_QUERY ]>
             (<[ "index" := TMPL_INDEX ]> ∅)))
       []).
Proof.
  intros Hkey. unfold startup, mustGetEnv. rewrite Hkey.
  reflexivity.
Qed.

(** X12: start-up.  Without OPENAI_API_KEY, [main] exits before it loads or
    posts anything; with the key and an unreadable references directory it
    exits without a call posted.  When start-up succeeds, the key is the one
    of the environment, each model is the environment's or its default, the
    threshold is 0.5, the three templates are loaded under their names, and
    the store holds exactly the regular files of the directory, one
    embedding call each. *)
Theorem startup_configures_then_loads :
  (LookupEnv openAIAPIKeyEnv = None ->
   forall s, startup s = (Fatal (EnvNotSet openAIAPIKeyEnv), s)) /\
  (forall key, LookupEnv openAIAPIKeyEnv = Some key ->
   ReadDir referencesPath = None ->
   fst (startup initial) = Fatal FailedToReadDirectory /\
   posted (snd (startup initial)) = []) /\
  (forall s, startup initial = (Ok tt, s) ->
   LookupEnv openAIAPIKeyEnv = Some (openAIAPIKey s) /\
   openAILanguageModel s
     = default openAILanguageModelDefault (LookupEnv openAILanguageModelEnv) /\
   openAIEmbeddingModel s
     = default openAIEmbeddingModelDefault (LookupEnv openAIEmbeddingModelEnv) /\
   similarityThreshold s = 0.5%float /\
   templates s !! "index" = Some TMPL_INDEX /\
   templates s !! "expand" = Some TMPL_PROMPT_EXPAND_QUERY /\
   templates s !! "response" = Some TMPL_PROMPT_RESPONSE /\
   exists files,
     ReadDir referencesPath = Some files /\
     map File (references s) = map Name (List.filter regular files) /\
     map ex_url (posted s)
       = replicate (length (references s)) openAIEmbeddingURL).
Proof.
  split; [|split].
  - intros Hkey s. unfold startup, mustGetEnv. rewrite Hkey. reflexivity.
  - intros key Hkey Hdir. rewrite (startup_run key Hkey).
    unfold LoadReferences. rewrite Hdir. split; reflexivity.
  - intros s Hrun.
    destruct (LookupEnv openAIAPIKeyEnv) as [key|] eqn:Hkey.
    2:{ unfold startup, mustGetEnv in Hrun. rewrite Hkey in Hrun. discriminate. }
    rewrite (startup_run key Hkey) in Hrun.
    unfold LoadReferences in Hrun.
    destruct (ReadDir referencesPath) as [files|] eqn:Hdir; [|discriminate].
    destruct (LoadReferences_inv _ _ _ _ Hrun)
      as (loaded & new & Hrefs & Hnames & _ & Hp & Hu & Hset).
    simpl in Hrefs, Hp. unfold settings in Hset. simpl in Hset.
    injection Hset as -> Hlm Hem -> ->.
    unfold getEnv in Hlm, Hem.
    repeat split; try reflexivity.
    + rewrite Hlm. destruct (LookupEnv openAILanguageModelEnv); reflexivity.
    + rewrite Hem. destruct (LookupEnv openAIEmbeddingModelEnv); reflexivity.
    + exists files. rewrite Hrefs, Hp, Hu. repeat split. exact Hnames.
Qed.

End StartupRun.

(** Start-up of the sky scenario succeeds. *)
Lemma startup_configures_then_loads_witness :
  let P := Fixture.platform Fixture.sky in
  let s := Fixture.loaded Fixture.sky in
  templates s !! "response" = Some TMPL_PROMPT_RESPONSE /\
  map File (references s) = ["sky.txt"].
Proof.
  cbv zeta.
  destruct (proj2 (proj2 (@startup_configures_then_loads (Fixture.platform Fixture.sky)))
              (Fixture.loaded Fixture.sky))
    as (_ & _ & _ & _ & _ & _ & Ht & files & Hdir & Hnames & _).
  - vm_compute. reflexivity.
  - split; [exact Ht|]. rewrite Hnames.
    injection Hdir as <-. reflexivity.
Defined.

(** ** The page *)

Section IndexPage.
Context `{P : Platform}.

Lemma exec_IfElse path yes no dot :
  Template.exec print (IfElse path yes no) dot =
  match Template.eval path dot with
  | Some v => if Template.truth v then Template.Execute print yes dot
              else Template.Execute print no dot
  | None => None
  end.
Proof.
  simpl. destruct (Template.eval path dot) as [v|]; [|reflexivity].
  match goal with
  | |- (if _ then ?block _ _ else _) = _ =>
      assert (Hblock : forall ns d, block ns d = Template.Execute print ns d)
  end.
  { induction ns as [|n ns IH]; intros d; [reflexivity|].
    simpl. rewrite IH. reflexivity. }
  rewrite !Hblock. reflexivity.
Qed.

Lemma each_link refs :
  each [Text (String.concat dq ["<a href="; "/references/"]);
        Field EscURL ["File"];
        Text (String.concat dq [EmptyString; ">"]);
        Field EscText ["File"];
        Text "</a>"] (map value_of_Reference refs) = Some (page_links refs).
Proof.
  induction refs as [|r refs IH]; [reflexivity|].
  change (map value_of_Reference (r :: refs))
    with (value_of_Reference r :: map value_of_Reference refs).
  cbn [each]. rewrite IH. reflexivity.
Qed.

Lemma each_citation cs :
  each [Text "
<li>"; Field EscText ["Claim"]; Text " ";
        Range ["References"]
          [Text (String.concat dq ["<a href="; "/references/"]);
           Field EscURL ["File"];
           Text (String.concat dq [EmptyString; ">"]);
           Field EscText ["File"];
           Text "</a>"];
        Text "</li>
"] (map value_of_Citation cs) = Some (page_citations cs).
Proof.
  induction cs as [|c cs IH]; [reflexivity|].
  change (map value_of_Citation (c :: cs))
    with (value_of_Citation c :: map value_of_Citation cs).
  cbn [each]. rewrite IH.
  rewrite !Execute_cons, exec_Range.
  change (Template.eval ["References"] (value_of_Citation c))
    with (Some (VSlice (map value_of_Reference (References c)))).
  cbv iota. rewrite each_link. reflexivity.
Qed.

(** The index template on the data of [Handler]. *)
Lemma index_render title response s :
  templates s !! "index" = Some TMPL_INDEX ->
  RenderTemplate "index" (index_data title response) s
  = (Ok (index_page title response), s).
Proof.
  intros Ht. unfold RenderTemplate. rewrite run_bind. unfold gets. rewrite Ht.
  unfold TMPL_INDEX at 1. rewrite !Execute_cons, exec_IfElse.
  destruct response as [c|].
  - change (Template.eval ["Response"] (index_data title (Some c)))
      with (Some (value_of_CitedResponse c)).
    cbv iota. change (Template.truth (value_of_CitedResponse c)) with true.
    cbv iota. rewrite !Execute_cons, exec_Range.
    change (Template.eval ["Response"; "Citations"] (index_data title (Some c)))
      with (Some (VSlice (map value_of_Citation (Citations c)))).
    cbv iota. rewrite each_citation. reflexivity.
  - reflexivity.
Qed.

(** X13: with the index template loaded, the page written for a response is
    the static text of the template around the escaped title, the commentary
    and, per citation in order, its claim and one link to /references/<file>
    per reference.  The page depends on the response through the commentary,
    the claims and the file names only: excerpts and embeddings of cited
    references are not shown. *)
Theorem the_page_links_every_cited_file_and_shows_no_excerpt title response s :
  templates s !! "index" = Some TMPL_INDEX ->
  RenderTemplate "index" (index_data title response) s
    = (Ok (index_page title response), s) /\
  (forall c c',
     response = Some c ->
     Commentary c' = Commentary c ->
     map (fun ci => (Claim ci, map File (References ci))) (Citations c')
       = map (fun ci => (Claim ci, map File (References ci))) (Citations c) ->
     index_page title (Some c') = index_page title response).
Proof.
  intros Ht. split; [apply index_render; exact Ht|].
  intros c c' -> Hcom Hcit.
  assert (Hlinks : forall rs rs' : list Reference,
            map File rs' = map File rs -> page_links rs' = page_links rs).
  { induction rs as [|r rs IH]; intros [|r' rs'] H; try discriminate;
      [reflexivity|].
    injection H as Hf H. simpl. unfold page_link. rewrite Hf, (IH _ H).
    reflexivity. }
  assert (Hitems : page_citations (Citations c') = page_citations (Citations c)).
  { revert Hcit. generalize (Citations c') (Citations c).
    induction l as [|ci' cs' IH]; intros [|ci cs] H; try discriminate;
      [reflexivity|].
    injection H as Hclaim Hfiles H. simpl. unfold page_citation.
    rewrite Hclaim, (Hlinks _ _ Hfiles), (IH _ H). reflexivity. }
  unfold index_page. rewrite Hcom, Hitems. reflexivity.
Qed.

End IndexPage.

(** The response that cites ghost.txt. *)
Lemma the_page_links_every_cited_file_and_shows_no_excerpt_witness :
  let P := Fixture.platform Fixture.cites_ghost in
  let s := Fixture.loaded Fixture.cites_ghost in
  let response := Some Fixture.ghost_answer in
  RenderTemplate "index" (index_data "Study" response) s
    = (Ok (index_page "Study" response), s) /\
  (forall c c',
     response = Some c ->
     Commentary c' = Commentary c ->
     map (fun ci => (Claim ci, map File (References ci))) (Citations c')
       = map (fun ci => (Claim ci, map File (References ci))) (Citations c) ->
     index_page "Study" (Some c') = index_page "Study" response).
Proof.
  cbv zeta.
  apply (@the_page_links_every_cited_file_and_shows_no_excerpt
           (Fixture.platform Fixture.cites_ghost)).
  vm_compute. reflexivity.
Defined.

Section Pipeline.
Context `{P : Platform}.

Lemma keeps_templates {A} (m : M A) s :
  keeps m -> templates (snd (m s)) = templates s.
Proof. intros Hk. specialize (Hk s). unfold globals in Hk. congruence. Qed.

(** X14: a POST that is answered went through the four stages in order, each
    on the output of the one before: the form value [query] is expanded, the
    expanded queries are retrieved, the original query and the candidates are
    composed, and the reply is the index page of the composed response. *)
Theorem a_served_query_goes_through_the_four_stages r s reply s' :
  Method r = MethodPost ->
  templates s !! "index" = Some TMPL_INDEX ->
  Handler r s = (Ok reply, s') ->
  exists expanded s1 candidates s2 response,
    ExpandQuery (FormValue r "query") s = (Ok expanded, s1) /\
    retrieve (Queries expanded) s1 = (Ok candidates, s2) /\
    GenerateCompletionWithCitations (FormValue r "query") candidates s2
      = (Ok response, s') /\
    reply = Written (index_page "Study" (Some response)).
Proof.
  intros Hm Ht Hrun. unfold Handler in Hrun. rewrite Hm in Hrun.
  change (String.eqb MethodPost MethodPost) with true in Hrun.
  cbv iota zeta in Hrun.
  apply run_bind_inv in Hrun as (expanded & s1 & Hexp & Hrun).
  apply run_bind_inv in Hrun as (candidates & s2 & Hret & Hrun).
  apply run_bind_inv in Hrun as (response & s3 & Hgen & Hrun).
  assert (Ht3 : templates s3 !! "index" = Some TMPL_INDEX).
  { pose proof (keeps_templates _ s (keeps_ExpandQuery (FormValue r "query"))) as H1.
    pose proof (keeps_templates _ s1 (keeps_retrieve (Queries expanded))) as H2.
    pose proof (keeps_templates _ s2
      (keeps_GenerateCompletionWithCitations (FormValue r "query") candidates)) as H3.
    rewrite Hexp in H1. rewrite Hret in H2. rewrite Hgen in H3. simpl in *.
    rewrite H3, H2, H1. exact Ht. }
  change (VStruct [("Title", VString "Study");
                   ("Response", value_of_CitedResponse response)])
    with (index_data "Study" (Some response)) in Hrun.
  rewrite run_bind, (index_render _ _ _ Ht3), run_ret in Hrun.
  injection Hrun as <- <-.
  exists expanded, s1, candidates, s2, response. repeat split; assumption.
Qed.

End Pipeline.

(** The request of the sky scenario. *)
Lemma a_served_query_goes_through_the_four_stages_witness :
  let P := Fixture.platform Fixture.sky in
  let s := Fixture.loaded Fixture.sky in
  let r := Fixture.post Fixture.query in
  exists expanded s1 candidates s2 response,
    ExpandQuery (FormValue r "query") s = (Ok expanded, s1) /\
    retrieve (Queries expanded) s1 = (Ok candidates, s2) /\
    GenerateCompletionWithCitations (FormValue r "query") candidates s2
      = (Ok response, snd (Handler r s)) /\
    fst (Handler r s) = Ok (Written (index_page "Study" (Some response))).
Proof.
  cbv zeta.
  destruct (@a_served_query_goes_through_the_four_stages
              (Fixture.platform Fixture.sky) (Fixture.post Fixture.query)
              (Fixture.loaded Fixture.sky)
              (Written (@index_page (Fixture.platform Fixture.sky) "Study"
                          (Some Fixture.sky_answer)))
              (snd (@Handler (Fixture.platform Fixture.sky)
                      (Fixture.post Fixture.query) (Fixture.loaded Fixture.sky))))
    as (expanded & s1 & candidates & s2 & response & H1 & H2 & H3 & H4).
  - reflexivity.
  - vm_compute. reflexivity.
  - vm_compute. reflexivity.
  - exists expanded, s1, candidates, s2, response.
    repeat split; try assumption.
    rewrite <- H4. vm_compute. reflexivity.
Defined.

(** ** NaN components *)

Module NaNFacts.
Import FloatFacts.

Lemma add_nan_l x y : isN x -> isN (x + y)%float.
Proof. unfold isN. rewrite add_spec. classify. Qed.

Lemma add_nan_r x y : isN y -> isN (x + y)%float.
Proof. unfold isN. rewrite add_spec. classify. Qed.

Lemma mul_nan_l x y : isN x -> isN (x * y)%float.
Proof. unfold isN. rewrite mul_spec. classify. Qed.

Lemma mul_nan_r x y : isN y -> isN (x * y)%float.
Proof. unfold isN. rewrite mul_spec. classify. Qed.

Lemma div_nan_l x y : isN x -> isN (x / y)%float.
Proof. unfold isN. rewrite div_spec. classify. Qed.

Import Similarity.

(** Once the dot product is NaN it stays NaN. *)
Lemma loop_nan_sticky rest : forall b i acc acc',
  isN (dotProduct acc) -> loop rest b i acc = Ok acc' -> isN (dotProduct acc').
Proof.
  induction rest as [|x rest IH]; intros b i acc acc' Hn Hrun; simpl in Hrun.
  - congruence.
  - destruct (b !! i) as [y|]; [|discriminate].
    eapply IH; [|exact Hrun]. simpl. apply add_nan_l. exact Hn.
Qed.

Lemma loop_nan_a rest : forall b i acc acc',
  Exists isN rest -> loop rest b i acc = Ok acc' -> isN (dotProduct acc').
Proof.
  induction rest as [|x rest IH]; intros b i acc acc' Hex Hrun; simpl in Hrun.
  - inversion Hex.
  - destruct (b !! i) as [y|]; [|discriminate].
    apply Exists_cons in Hex as [Hx|Hex].
    + eapply loop_nan_sticky; [|exact Hrun]. simpl.
      apply add_nan_r, mul_nan_l. exact Hx.
    + eapply IH; [exact Hex | exact Hrun].
Qed.

Lemma loop_nan_b rest : forall b i acc acc' j y,
  i <= j < i + length rest -> b !! j = Some y -> isN y ->
  loop rest b i acc = Ok acc' -> isN (dotProduct acc').
Proof.
  induction rest as [|x rest IH]; intros b i acc acc' j y Hj Hy Hn Hrun;
    simpl in *.
  - lia.
  - destruct (b !! i) as [y0|] eqn:Hy0; [|discriminate].
    destruct (decide (j = i)) as [->|Hne].
    + assert (y0 = y) as -> by congruence.
      eapply loop_nan_sticky; [|exact Hrun]. simpl.
      apply add_nan_r, mul_nan_r. exact Hn.
    + eapply (IH b (S i) _ acc' j y); [lia | exact Hy | exact Hn | exact Hrun].
Qed.

End NaNFacts.

(** X15: a NaN component in either vector makes the score NaN against every
    vector of the same dimension, and NaN is above no threshold. *)
Theorem a_NaN_component_scores_NaN (a b : list float) :
  length a = length b ->
  Exists (fun x => PrimFloat.is_nan x = true) a \/
  Exists (fun x => PrimFloat.is_nan x = true) b ->
  exists sim, CalculateSimilarity a b = Ok sim /\
              PrimFloat.is_nan sim = true /\
              forall threshold, (threshold <? sim)%float = false.
Proof.
  intros Hlen Hex. unfold CalculateSimilarity.
  destruct (SimilarityFacts.loop_defined a b 0 zero_sums) as [acc Hacc];
    [simpl; lia|].
  rewrite Hacc. simpl. eexists. split; [reflexivity|].
  assert (Hdot : isN (dotProduct acc)).
  { destruct Hex as [Hex|Hex].
    - eapply NaNFacts.loop_nan_a; [|exact Hacc].
      eapply Exists_impl; [exact Hex|]. intros x Hx. simpl in Hx.
      unfold isN. rewrite <- FloatFacts.is_nan_spec. exact Hx.
    - apply Exists_exists in Hex as (y & Hin & Hy).
      apply list_elem_of_lookup in Hin as [j Hj].
      eapply (NaNFacts.loop_nan_b a b 0 _ acc j y); [| exact Hj | | exact Hacc].
      + apply lookup_lt_Some in Hj. lia.
      + unfold isN. rewrite <- FloatFacts.is_nan_spec. exact Hy. }
  assert (Hsim : isN (Similarity.finish acc)).
  { unfold Similarity.finish. apply NaNFacts.div_nan_l. exact Hdot. }
  split.
  - rewrite FloatFacts.is_nan_spec. exact Hsim.
  - intros threshold. apply FloatFacts.ltb_nan_r. exact Hsim.
Qed.

(** A NaN in the first vector. *)
Lemma a_NaN_component_scores_NaN_witness :
  exists sim, CalculateSimilarity [1%float; nan] [3%float; 4%float] = Ok sim /\
              PrimFloat.is_nan sim = true /\
              forall threshold, (threshold <? sim)%float = false.
Proof.
  apply a_NaN_component_scores_NaN.
  - reflexivity.
  - left. right. left. reflexivity.
Defined.

(** ** A failed provider call at start-up *)

Section StartupFailure.
Context `{P : Platform}.

Lemma ff_modify f : (forall s, posted (f s) = posted s) -> fails_fast (modify f).
Proof. intros H. apply ff_silent. exact H. Qed.

Lemma ff_LoadTemplate name text : fails_fast (LoadTemplate name text).
Proof.
  unfold LoadTemplate. apply ff_bind; [apply ff_gets|]. intros tmpls.
  destruct (tmpls !! name); [apply ff_ret|].
  apply ff_bind; [apply ff_modify; reflexivity | intros; apply ff_ret].
Qed.

Lemma ff_LoadReferences path : fails_fast (LoadReferences path).
Proof.
  unfold LoadReferences. destruct (ReadDir path) as [files|]; [|apply ff_log_Fatal].
  apply ff_range_. intros file. destruct (IsDir file); [apply ff_ret|].
  destruct (ReadFile _); [|apply ff_log_Fatal]. cbv zeta.
  apply ff_bind; [apply ff_GenerateEmbedding|]. intros embedding.
  apply ff_bind; [apply ff_gets|]. intros refs.
  apply ff_bind; [apply ff_modify; reflexivity | intros; apply ff_ret].
Qed.

Lemma ff_startup : fails_fast startup.
Proof.
  unfold startup.
  apply ff_bind.
  { unfold mustGetEnv. destruct (LookupEnv _); [apply ff_ret | apply ff_log_Fatal]. }
  intros key.
  do 3 (apply ff_bind; [apply ff_modify; reflexivity | intros _]).
  do 3 (apply ff_bind; [apply ff_LoadTemplate | intros _]).
  apply ff_LoadReferences.
Qed.

(** What [fails_fast] says of one call that was not accepted. *)
Lemma fails_fast_at {A} (m : M A) s e :
  fails_fast m ->
  e ∈ drop (length (posted s)) (posted (snd (m s))) ->
  accepted (ex_outcome e) = false ->
  fst (m s) = Fatal (fatal_of (ex_outcome e)).
Proof.
  intros Hff Hin Hbad.
  destruct (Hff s) as (new & Hp & [Hall|(pre & e' & -> & Hpre & He' & Hf)]);
    rewrite Hp, drop_app_length in Hin.
  - unfold all_accepted in Hall. rewrite Forall_forall in Hall.
    rewrite (Hall e Hin) in Hbad. discriminate.
  - apply elem_of_app in Hin as [Hin|Hin].
    + unfold all_accepted in Hpre. rewrite Forall_forall in Hpre.
      rewrite (Hpre e Hin) in Hbad. discriminate.
    + apply list_elem_of_singleton in Hin. subst e'. exact Hf.
Qed.

(** X16: when a call posted during start-up gets a response whose status is
    not 200, start-up ends in the [log.Fatalf] of [doPost] with that status
    and body, and [main] serves no request. *)
Theorem a_provider_failure_at_startup_is_fatal e code body :
  e ∈ posted (snd (startup initial)) ->
  ex_outcome e = Response code body ->
  code <> 200%Z ->
  fst (startup initial)
    = Fatal (UnexpectedStatusCode code (default EmptyString body)) /\
  forall requests,
    fst (main requests)
    = (Fatal (UnexpectedStatusCode code (default EmptyString body)), []).
Proof.
  intros Hin Ho Hcode.
  assert (Hexit : fst (startup initial)
                  = Fatal (UnexpectedStatusCode code (default EmptyString body))).
  { rewrite (fails_fast_at startup initial e ff_startup).
    - rewrite Ho. simpl. apply Z.eqb_neq in Hcode. rewrite Hcode. reflexivity.
    - exact Hin.
    - rewrite Ho. simpl. destruct body; [apply Z.eqb_neq; exact Hcode | reflexivity]. }
  split; [exact Hexit|].
  intros requests. unfold main.
  destruct (startup initial) as [o s0]. simpl in Hexit. subst o. reflexivity.
Qed.

End StartupFailure.

(** The first embedding call of start-up is answered 500. *)
Lemma a_provider_failure_at_startup_is_fatal_witness :
  let P := Fixture.platform Scenarios.embeddings_down in
  fst (startup initial) = Fatal (UnexpectedStatusCode 500 Fixture.sky_fact) /\
  forall requests,
    fst (main requests) = (Fatal (UnexpectedStatusCode 500 Fixture.sky_fact), []).
Proof.
  cbv zeta.
  apply (@a_provider_failure_at_startup_is_fatal
           (Fixture.platform Scenarios.embeddings_down)
           (mkExchange openAIEmbeddingURL Fixture.sky_fact
              (Response 500 (Some Fixture.sky_fact)))
           500%Z (Some Fixture.sky_fact)).
  - vm_compute. constructor.
  - reflexivity.
  - discriminate.
Defined.

(** * The lookup against the formula of the specification *)

Module CosineFacts.
Import Similarity.

(** The three accumulators of the loop are the three sums of the formula. *)
Lemma fold_step_sums a : forall b acc,
  length a = length b ->
  fold_left (fun acc xy => step acc (fst xy) (snd xy)) (zip a b) acc =
  Sums (fold_left plus_product (zip a b) (dotProduct acc))
       (fold_left plus_product (zip a a) (aMagnitude acc))
       (fold_left plus_product (zip b b) (bMagnitude acc)).
Proof.
  induction a as [|x a IH]; intros [|y b] acc Hlen; try discriminate.
  - destruct acc. reflexivity.
  - simpl in Hlen. injection Hlen as Hlen.
    change (zip (x :: a) (y :: b)) with ((x, y) :: zip a b).
    change (zip (x :: a) (x :: a)) with ((x, x) :: zip a a).
    change (zip (y :: b) (y :: b)) with ((y, y) :: zip b b).
    cbn [fold_left]. rewrite (IH b _ Hlen). reflexivity.
Qed.

Lemma CalculateSimilarity_cosine a b :
  length a = length b -> CalculateSimilarity a b = Ok (Cosine.cosine a b).
Proof.
  intros Hlen. unfold CalculateSimilarity.
  rewrite SimilaritySymmetry.loop_zip by (simpl; lia).
  rewrite drop_0, (fold_step_sums a b zero_sums Hlen). reflexivity.
Qed.

End CosineFacts.

Section FormulaClaim.
Context `{P : Platform}.

(** C6 as the code has it: once the query is embedded, and with every stored
    embedding of the dimension of the query embedding, [FindReference]
    returns exactly the stored references for which the float64 value of
    dot(a,b) / (|a| * |b|) is strictly above [similarityThreshold], in store
    order. *)
Theorem FindReference_returns_the_facts_above_the_threshold query s e s1 :
  GenerateEmbedding query s = (Ok e, s1) ->
  Forall (fun r => length (Embedding r) = length e) (references s) ->
  FindReference query s =
  (Ok (List.filter
         (fun r => (similarityThreshold s <? Cosine.cosine e (Embedding r))%float)
         (references s)), s1).
Proof.
  intros He Hdim. rewrite (FindReference_run _ _ _ _ He).
  rewrite foldM_scan_total.
  - rewrite (threshold_after_embedding _ _ _ _ He). f_equal. f_equal.
    apply filter_ext_in. intros r Hr. unfold above.
    rewrite Forall_forall in Hdim.
    rewrite CosineFacts.CalculateSimilarity_cosine; [reflexivity|].
    symmetry. apply Hdim. apply list_elem_of_In. exact Hr.
  - eapply Forall_impl; [exact Hdim|]. intros r Hr. simpl in Hr.
    exists (Cosine.cosine e (Embedding r)).
    apply CosineFacts.CalculateSimilarity_cosine. symmetry. exact Hr.
Qed.

End FormulaClaim.

(** The lookup of the sky scenario: the store is loaded and its embedding
    has the dimension of the query embedding. *)
Lemma FindReference_returns_the_facts_above_the_threshold_witness :
  let P := Fixture.platform Fixture.sky in
  let s := Fixture.loaded Fixture.sky in
  let e := [1%float; 0%float] in
  let s1 := snd (GenerateEmbedding Fixture.query s) in
  FindReference Fixture.query s =
  (Ok (List.filter
         (fun r => (similarityThreshold s <? Cosine.cosine e (Embedding r))%float)
         (references s)), s1).
Proof.
  cbv zeta.
  apply (@FindReference_returns_the_facts_above_the_threshold
           (Fixture.platform Fixture.sky)).
  - vm_compute. reflexivity.
  - vm_compute. repeat constructor.
Defined.

(** The exact values of the components used below. *)
Module ExactFacts.

Lemma powerRZ_2_neg (p : positive) :
  powerRZ 2 (Zneg p) = (/ IZR (2 ^ Zpos p))%R.
Proof.
  unfold powerRZ. rewrite pow_IZR, positive_nat_Z. reflexivity.
Qed.

Lemma real_0 : Exact.real 0%float = 0%R.
Proof. reflexivity. Qed.

Lemma real_7 : Exact.real 7%float = 7%R.
Proof.
  unfold Exact.real.
  change (Prim2SF 7%float) with (S754_finite false 7881299347898368 (-50)).
  cbn [cond_Zopp]. rewrite powerRZ_2_neg.
  change (2 ^ 50)%Z with 1125899906842624%Z. lra.
Qed.

Lemma real_minus_7 : Exact.real (-7)%float = (-7)%R.
Proof.
  unfold Exact.real.
  change (Prim2SF (-7)%float) with (S754_finite true 7881299347898368 (-50)).
  cbv beta iota. change (cond_Zopp true 7881299347898368) with (-7881299347898368)%Z.
  rewrite powerRZ_2_neg.
  change (2 ^ 50)%Z with 1125899906842624%Z. lra.
Qed.

Lemma real_6 : Exact.real 6%float = 6%R.
Proof.
  unfold Exact.real.
  change (Prim2SF 6%float) with (S754_finite false 6755399441055744 (-50)).
  cbn [cond_Zopp]. rewrite powerRZ_2_neg.
  change (2 ^ 50)%Z with 1125899906842624%Z. lra.
Qed.

Lemma real_minus_6 : Exact.real (-6)%float = (-6)%R.
Proof.
  unfold Exact.real.
  change (Prim2SF (-6)%float) with (S754_finite true 6755399441055744 (-50)).
  cbv beta iota. change (cond_Zopp true 6755399441055744) with (-6755399441055744)%Z.
  rewrite powerRZ_2_neg.
  change (2 ^ 50)%Z with 1125899906842624%Z. lra.
Qed.

Lemma real_half : Exact.real 0.5%float = (1 / 2)%R.
Proof.
  unfold Exact.real.
  change (Prim2SF 0.5%float) with (S754_finite false 4503599627370496 (-53)).
  cbn [cond_Zopp]. rewrite powerRZ_2_neg.
  change (2 ^ 53)%Z with 9007199254740992%Z. lra.
Qed.

(** The exact cosine of (7, -7, 0) and (0, -6, 6) is 42 / (sqrt 98 * sqrt 72),
    that is 1/2. *)
Lemma cosine_half :
  Exact.cosine [7%float; (-7)%float; 0%float] [0%float; (-6)%float; 6%float]
  = (1 / 2)%R.
Proof.
  unfold Exact.cosine, Exact.magnitude, Exact.dot. cbn [zip zip_with fold_right fst snd].
  rewrite real_0, real_7, real_minus_7, real_6, real_minus_6.
  rewrite <- sqrt_mult by lra.
  replace ((7 * 7 + (-7 * -7 + (0 * 0 + 0))) * (0 * 0 + (-6 * -6 + (6 * 6 + 0))))%R
    with (84 * 84)%R by lra.
  rewrite sqrt_square by lra. lra.
Qed.

End ExactFacts.

(** C6 as stated fails: the exact cosine of the query embedding and the
    stored embedding is 1/2, which is not strictly above the threshold 0.5,
    and the lookup returns the fact: the rounded score is just above 0.5. *)
Lemma rounding_returns_a_fact_at_the_threshold :
  let P := Fixture.platform AtThreshold.scenario in
  let s := Fixture.loaded AtThreshold.scenario in
  let e := [7%float; (-7)%float; 0%float] in
  fst (GenerateEmbedding Fixture.query s) = Ok e /\
  references s = [AtThreshold.reference] /\
  fst (FindReference Fixture.query s) = Ok [AtThreshold.reference] /\
  ~ (Exact.real (similarityThreshold s)
     < Exact.cosine e (Embedding AtThreshold.reference))%R.
Proof.
  cbv zeta. split; [vm_compute; reflexivity|].
  split; [vm_compute; reflexivity|]. split; [vm_compute; reflexivity|].
  change (similarityThreshold (Fixture.loaded AtThreshold.scenario)) with 0.5%float.
  change (Embedding AtThreshold.reference)
    with [0%float; (-6)%float; 6%float].
  rewrite ExactFacts.real_half, ExactFacts.cosine_half. lra.
Qed.
